(** * Automated trading alerts: a shallow embedding of
    [automated_trading_alerts.py] and the properties of its pipeline.

    The script loads a snapshot of positions, applies threshold rules to
    each position, renders two messages, posts them and writes a status
    file.  Python values are embedded as the inductive [pyval], exceptions
    as the [Raised] case of [result], and input/output as a log of events
    threaded through the [IO] monad.  Console output ([print]) is not part
    of the model. *)

From Stdlib Require Import ZArith String Ascii List Floats Bool Lia.
From stdpp Require Import base option list gmap strings.

Set Warnings "-register-all".
Local Open Scope string_scope.
Local Open Scope list_scope.
Local Open Scope nat_scope.

(** ** Python values *)

(** What [json.load] and [csv.DictReader] can put into a position: the
    JSON value types.  A [str] is kept as its UTF-8 bytes; comparing two
    strings for equality is the same on bytes and on code points.  A
    [dict] is only read through [get], [in], indexing and item assignment
    here, so a finite map with string keys carries all that the program
    observes of it. *)
Inductive pyval :=
| PyNone
| PyBool (b : bool)
| PyInt (z : Z)
| PyFloat (f : float)
| PyStr (s : string)
| PyList (l : list pyval)
| PyDict (d : gmap string pyval).

(** The exception classes the modelled code can meet; every one derives
    from Python's [Exception]. *)
Inductive exn :=
| ValueError
| TypeError
| OverflowError
| AttributeError
| OSError
| RequestException.

(** The outcome of evaluating an expression: a value, or a raised
    exception. *)
Inductive result (A : Type) :=
| Ok (a : A)
| Raised (e : exn).
Arguments Ok {A} a.
Arguments Raised {A} e.

#[global] Instance result_ret : MRet result := fun A a => Ok a.
#[global] Instance result_bind : MBind result := fun A B k r =>
  match r with
  | Ok a => k a
  | Raised e => Raised e
  end.

#[global] Instance result_fmap : FMap result := fun A B f r =>
  match r with
  | Ok a => Ok (f a)
  | Raised e => Raised e
  end.

Definition is_ok {A} (r : result A) : bool :=
  match r with
  | Ok _ => true
  | Raised _ => false
  end.

(** ** Builtins *)

(** [float(s)] for a [str] argument: the parser of the Python runtime.
    [None] stands for [ValueError]. *)
Class FloatOfStr := float_of_str : string → option float.

(** [float(n)] for an [int]: the nearest binary64 value, ties to even;
    [None] stands for [OverflowError] (the rounded value is not finite). *)
Definition float_of_int (z : Z) : option float :=
  match binary_normalize prec emax z 0 false with
  | S754_infinity _ => None
  | sf => Some (SF2Prim sf)
  end.

Section Builtins.
Context `{FloatOfStr}.

(** The builtin [float(v)]. *)
Definition py_float (v : pyval) : result float :=
  match v with
  | PyFloat f => Ok f
  | PyInt z =>
      match float_of_int z with
      | Some f => Ok f
      | None => Raised OverflowError
      end
  | PyBool b => Ok (if b then 1%float else 0%float)
  | PyStr s =>
      match float_of_str s with
      | Some f => Ok f
      | None => Raised ValueError
      end
  | PyNone | PyList _ | PyDict _ => Raised TypeError
  end.

End Builtins.

(** Truth value of an object, as [if v] and [not v] test it. *)
Definition py_truthy (v : pyval) : bool :=
  match v with
  | PyNone => false
  | PyBool b => b
  | PyInt z => negb (z =? 0)%Z
  | PyFloat f => negb (PrimFloat.eqb f 0%float)
  | PyStr s => negb (String.eqb s "")
  | PyList l => negb (Nat.eqb (length l) 0)
  | PyDict d => negb (Nat.eqb (size d) 0)
  end.

(** [v == s] for a string literal [s]: only a [str] with the same
    contents is equal to it. *)
Definition py_eq_str (v : pyval) (s : string) : bool :=
  match v with
  | PyStr t => String.eqb t s
  | _ => false
  end.

(** [pos.get(key, default)]: of the JSON value types only [dict] has the
    method. *)
Definition py_get (pos : pyval) (key : string) (dflt : pyval) : result pyval :=
  match pos with
  | PyDict d => Ok (default dflt (d !! key))
  | _ => Raised AttributeError
  end.

(** The items a [for] loop over [v] visits.  A [dict] yields its keys and
    a [str] its characters: all of them strings (the order of the keys,
    and bytes against code points, are not observed by any caller, which
    fails on the first item that is a string). *)
Definition py_iter (v : pyval) : result (list pyval) :=
  match v with
  | PyList l => Ok l
  | PyDict d => Ok (PyStr <$> (map_to_list d).*1)
  | PyStr s => Ok ((λ c, PyStr (String c "")) <$> list_ascii_of_string s)
  | PyNone | PyBool _ | PyInt _ | PyFloat _ => Raised TypeError
  end.

(** [len(v)], for the values that have a length. *)
Definition py_len (v : pyval) : result nat :=
  length <$> py_iter v.

(** ** Rendered text *)

(** An f-string is kept as its pieces, the literal text and the values
    interpolated into it, each with its format specification.  Rendering
    the pieces to characters never fails on the values met here and is
    not modelled. *)
Inductive fragment :=
| Lit (s : string)
| FmtValue (v : pyval)                (* [{v}] *)
| FmtFixed (digits : nat) (x : float) (* [{x:.1f}] and [{x:.0f}] *)
| FmtMoney (x : float)                (* [{x:,.2f}] *)
| FmtCount (n : nat)                  (* [{n}] for an [int] *)
| FmtTime (format : string) (t : Z)   (* [t.strftime(format)] *)
| FmtTitle (s : string).              (* [s.replace('_', ' ').title()] *)

Definition text := list fragment.

(** The newline character of the source's ["\n"]. *)
Definition nl : string := String (ascii_of_nat 10) "".

(** ** Alert records *)

(** The dictionaries appended by [analyze_positions].  The keys ['pnl'],
    ['margin'] and ['rsi'] are present in some kinds of alert only. *)
Record alert := {
  alert_type : string;
  alert_symbol : pyval;
  alert_platform : pyval;
  alert_pnl : option float;
  alert_margin : option float;
  alert_rsi : option Z;
  alert_message : text;
  alert_channel : string
}.

(** ** The rule evaluator *)

Section Evaluator.
Context `{FloatOfStr}.

(** The three conversions under the inner [try]; the first that raises
    ends the block. *)
Definition coerce_fields (pnl_percent pnl_dollar margin : pyval)
  : result (float * float * float) :=
  pnl_percent ← py_float pnl_percent;
  pnl_dollar ← py_float pnl_dollar;
  margin ← py_float margin;
  mret (pnl_percent, pnl_dollar, margin).

(** One iteration of the [for] loop of [analyze_positions]: [alerts] is
    the list built so far, the result is the list after this position.
    A raised exception leaves the loop (it is caught by the outer
    [try]). *)
Definition analyze_position (alerts : list alert) (pos : pyval) : result (list alert) :=
  symbol ← py_get pos "Symbol" (PyStr "Unknown");
  platform ← py_get pos "Platform" (PyStr "Unknown");
  pnl_percent ← py_get pos "PnL %" (PyInt 0);
  pnl_dollar ← py_get pos "PnL $" (PyInt 0);
  margin ← py_get pos "Margin Size ($)" (PyInt 0);
  match coerce_fields pnl_percent pnl_dollar margin with
  | Raised _ => Ok alerts (* [except: continue] *)
  | Ok (pnl_percent, pnl_dollar, margin) =>
      let alerts :=
        if (50 <? pnl_percent)%float then
          alerts ++ [ {| alert_type := "high_profit";
                         alert_symbol := symbol;
                         alert_platform := platform;
                         alert_pnl := Some pnl_percent;
                         alert_margin := None;
                         alert_rsi := None;
                         alert_message :=
                           [ Lit "💰 "; FmtValue symbol; Lit " up ";
                             FmtFixed 1 pnl_percent;
                             Lit "%! Consider rotating or trailing stops." ];
                         alert_channel := "portfolio" |} ]
        else if (pnl_percent <? -10)%float then
          alerts ++ [ {| alert_type := "losing_trade";
                         alert_symbol := symbol;
                         alert_platform := platform;
                         alert_pnl := Some pnl_percent;
                         alert_margin := Some margin;
                         alert_rsi := None;
                         alert_message :=
                           [ Lit "🚨 "; FmtValue symbol; Lit " is down ";
                             FmtFixed 1 pnl_percent;
                             Lit "%. Capital preservation - review position." ];
                         alert_channel := "portfolio" |} ]
        else alerts in
      let alerts :=
        if (pnl_percent <? -15)%float then
          alerts ++ [ {| alert_type := "oversold";
                         alert_symbol := symbol;
                         alert_platform := platform;
                         alert_pnl := Some pnl_percent;
                         alert_margin := None;
                         alert_rsi := Some 20%Z;
                         alert_message :=
                           [ Lit "🟩 "; FmtValue symbol;
                             Lit " is oversold at simulated RSI 20. Clean reversal setup detected." ];
                         alert_channel := "alpha" |} ]
        else if (80 <? pnl_percent)%float then
          alerts ++ [ {| alert_type := "overbought";
                         alert_symbol := symbol;
                         alert_platform := platform;
                         alert_pnl := Some pnl_percent;
                         alert_margin := None;
                         alert_rsi := Some 85%Z;
                         alert_message :=
                           [ Lit "🟥 Alert! "; FmtValue symbol;
                             Lit " RSI is 85. Consider exiting or trailing stop." ];
                         alert_channel := "alpha" |} ]
        else alerts in
      sl_set ← py_get pos "SL Set?" (PyStr "❌");
      let alerts :=
        if py_eq_str sl_set "❌" && (100 <? margin)%float then
          alerts ++ [ {| alert_type := "no_stop_loss";
                         alert_symbol := symbol;
                         alert_platform := platform;
                         alert_pnl := None;
                         alert_margin := Some margin;
                         alert_rsi := None;
                         alert_message :=
                           [ Lit "🛡️ "; FmtValue symbol; Lit " position ($";
                             FmtFixed 0 margin;
                             Lit ") needs STOP LOSS for fast rotation!" ];
                         alert_channel := "portfolio" |} ]
        else alerts in
      Ok alerts
  end.

(** The [for] loop. *)
Fixpoint analyze_loop (alerts : list alert) (items : list pyval) : result (list alert) :=
  match items with
  | [] => Ok alerts
  | pos :: rest => alerts ← analyze_position alerts pos; analyze_loop alerts rest
  end.

(** [analyze_positions(positions)]: the list built by the loop, or the
    empty list when anything was raised out of it. *)
Definition analyze_positions (positions : pyval) : list alert :=
  match items ← py_iter positions; analyze_loop [] items with
  | Ok alerts => alerts
  | Raised _ => []
  end.

End Evaluator.

(** ** The world outside the process *)

(** The outcome of [requests.post]: a response with its status code, or
    an exception of the [requests] library. *)
Inductive net_outcome :=
| Response (status_code : Z)
| NetRaised (e : exn).

(** The dictionary serialised into the status file. *)
Record alerts_data := {
  data_timestamp : fragment;
  data_total_alerts : nat;
  data_alerts : list alert;
  data_total_positions : nat;
  data_profitable_count : nat;
  data_losing_count : nat
}.

(** What the process does to the outside, in the order it does it. *)
Inductive event :=
| EvGlob (pattern : string)
| EvOpenRead (path : string)
| EvNews
| EvPost (url authorization : string) (content : text)
| EvWrite (path : string) (data : alerts_data).

(** The environment of one run.  [DISCORD_TOKEN] and the two channel
    identifiers are the module constants read from the process
    environment.  [listing] holds the names in the working directory in
    the order the directory scan returns them, and every listed name has
    a creation time.  [read_json] and [read_csv] give what opening a file
    and running [json.load], or [csv.DictReader], over it produces.  The
    clock and the network may answer differently as the run proceeds, so
    they see the events so far. *)
Record World := {
  DISCORD_TOKEN : option string;
  ALPHA_CHANNEL_ID : string;
  PORTFOLIO_CHANNEL_ID : string;
  listing : list string;
  getctime : string → Z;
  read_json : string → result pyval;
  read_csv : string → result (list (gmap string pyval));
  http_post : list event → string → string → text → net_outcome;
  news_digest : text;
  clock : list event → Z;
  can_write : string → bool
}.

(** ** Effects *)

(** A computation that may raise, over the log of events. *)
Definition IO (A : Type) : Type := list event → result A * list event.

#[global] Instance IO_ret : MRet IO := fun A a tr => (Ok a, tr).
#[global] Instance IO_bind : MBind IO := fun A B k m tr =>
  match m tr with
  | (Ok a, tr') => k a tr'
  | (Raised e, tr') => (Raised e, tr')
  end.

Definition emit (e : event) : IO unit := fun tr => (Ok tt, tr ++ [e]).

Definition lift {A} (r : result A) : IO A := fun tr => (r, tr).

(** [try: body except Exception: handler]. *)
Definition try_except {A} (body : IO A) (handler : exn → IO A) : IO A := fun tr =>
  match body tr with
  | (Ok a, tr') => (Ok a, tr')
  | (Raised e, tr') => handler e tr'
  end.

(** Events of the kinds the run is judged by: those that may reach the
    network (a posted message, a call of the news collaborator), and the
    writing of the status file. *)
Definition is_network (e : event) : bool :=
  match e with
  | EvPost _ _ _ | EvNews => true
  | _ => false
  end.

Definition is_post (e : event) : bool :=
  match e with
  | EvPost _ _ _ => true
  | _ => false
  end.

Definition is_write (e : event) : bool :=
  match e with
  | EvWrite _ _ => true
  | _ => false
  end.

(** ** The position loader *)

Definition is_suffix (suffix name : string) : bool :=
  String.eqb
    (substring (String.length name - String.length suffix) (String.length suffix) name)
    suffix.

(** The shell pattern [prefix*suffix] of [fnmatch]. *)
Definition fnmatch_star (prefix suffix name : string) : bool :=
  String.prefix prefix name && is_suffix suffix name
  && Nat.leb (String.length prefix + String.length suffix) (String.length name).

(** The names of the working directory that match [prefix*suffix]. *)
Definition matching (w : World) (prefix suffix : string) : list string :=
  List.filter (fnmatch_star prefix suffix) (listing w).

(** [glob.glob(prefix + "*" + suffix)] in the working directory. *)
Definition glob (w : World) (prefix suffix : string) : IO (list string) :=
  _ ← emit (EvGlob (prefix +:+ "*" +:+ suffix));
  mret (matching w prefix suffix).

(** The loop of the builtin [max(items, key=key)]: the first item with
    the largest key is kept. *)
Fixpoint max_from {A} (key : A → Z) (maxitem : A) (maxval : Z) (items : list A) : A :=
  match items with
  | [] => maxitem
  | item :: rest =>
      let val := key item in
      if (maxval <? val)%Z then max_from key item val rest
      else max_from key maxitem maxval rest
  end.

Definition py_max {A} (key : A → Z) (items : list A) : result A :=
  match items with
  | [] => Raised ValueError
  | item :: rest => Ok (max_from key item (key item) rest)
  end.

Definition open_json (w : World) (path : string) : IO pyval :=
  _ ← emit (EvOpenRead path); lift (read_json w path).

Definition open_csv (w : World) (path : string) : IO (list (gmap string pyval)) :=
  _ ← emit (EvOpenRead path); lift (read_csv w path).

Definition numeric_keys : list string :=
  ["PnL %"; "PnL $"; "Margin Size ($)"; "Entry Price"; "Mark Price"].

Section Loader.
Context `{FloatOfStr}.

(** The body of the inner loop over the numeric keys:
    [if key in pos and pos[key]: try: pos[key] = float(pos[key])
     except: pos[key] = 0.0]. *)
Definition coerce_key (pos : gmap string pyval) (key : string) : gmap string pyval :=
  match pos !! key with
  | Some v =>
      if py_truthy v then
        match py_float v with
        | Ok x => <[key := PyFloat x]> pos
        | Raised _ => <[key := PyFloat 0%float]> pos
        end
      else pos
  | None => pos
  end.

Definition coerce_row (pos : gmap string pyval) : gmap string pyval :=
  foldl coerce_key pos numeric_keys.

(** [load_latest_positions()]. *)
Definition load_latest_positions (w : World) : IO pyval :=
  try_except
    (json_files ← glob w "positions_" ".json";
     if negb (Nat.eqb (length json_files) 0) then
       latest_file ← lift (py_max (getctime w) json_files);
       positions ← open_json w latest_file;
       _ ← lift (py_len positions);
       mret positions
     else
       csv_files ← glob w "positions_" ".csv";
       if negb (Nat.eqb (length csv_files) 0) then
         latest_file ← lift (py_max (getctime w) csv_files);
         positions ← open_csv w latest_file;
         mret (PyList (PyDict <$> (coerce_row <$> positions)))
       else mret (PyList []))
    (fun _ => mret (PyList [])).

End Loader.

(** ** The notifier *)

Definition token_configured (token : option string) : bool :=
  match token with
  | Some s => negb (String.eqb s "")
  | None => false
  end.

Definition requests_post (w : World) (url authorization : string) (content : text)
  : IO Z := fun tr =>
  let tr' := tr ++ [EvPost url authorization content] in
  match http_post w tr url authorization content with
  | Response status_code => (Ok status_code, tr')
  | NetRaised e => (Raised e, tr')
  end.

Definition discord_url (channel_id : string) : string :=
  "https://discord.com/api/v9/channels/" +:+ channel_id +:+ "/messages".

Definition authorization_header (w : World) : string :=
  "Bot " +:+ default "" (DISCORD_TOKEN w).

(** [send_discord_message(message, channel_id)]. *)
Definition send_discord_message (w : World) (message : text) (channel_id : string)
  : IO bool :=
  if negb (token_configured (DISCORD_TOKEN w)) then mret false
  else
    try_except
      (let url := discord_url channel_id in
       let authorization := authorization_header w in
       status_code ← requests_post w url authorization message;
       if (status_code =? 200)%Z then mret true else mret false)
      (fun _ => mret false).

(** ** The news collaborator *)

(** [get_crypto_news_summary()] calls an external module under a
    [try] that turns every failure into a fixed string, so it always
    returns a string; the string is taken from the world. *)
Definition get_crypto_news_summary (w : World) : IO text :=
  _ ← emit EvNews; mret (news_digest w).

(** ** The summary formatter *)

Definition datetime_now (w : World) : IO Z := fun tr => (Ok (clock w tr), tr).

(** [alert_counts[alert_type] = alert_counts.get(alert_type, 0) + 1] on a
    dictionary kept in insertion order. *)
Fixpoint count_alert (alert_type : string) (alert_counts : list (string * nat))
  : list (string * nat) :=
  match alert_counts with
  | [] => [(alert_type, 1)]
  | (k, n) :: rest =>
      if String.eqb k alert_type then (k, n + 1) :: rest
      else (k, n) :: count_alert alert_type rest
  end.

Definition alert_emoji (alert_type : string) : string :=
  if String.eqb alert_type "oversold" then "🟩"
  else if String.eqb alert_type "overbought" then "🟥"
  else if String.eqb alert_type "high_profit" then "💰"
  else if String.eqb alert_type "losing_trade" then "📉"
  else if String.eqb alert_type "no_stop_loss" then "🛡️"
  else "⚠️".

Section Summary.
Context `{FloatOfStr}.

(** The comprehension [[p for p in items if test(float(p.get('PnL %', 0)))]]. *)
Fixpoint filter_pnl (test : float → bool) (items : list pyval) : result (list pyval) :=
  match items with
  | [] => Ok []
  | p :: rest =>
      v ← py_get p "PnL %" (PyInt 0);
      x ← py_float v;
      selected ← filter_pnl test rest;
      mret (if test x then p :: selected else selected)
  end.

(** [len([p for p in positions if test(float(p.get('PnL %', 0)))])]. *)
Definition count_pnl (test : float → bool) (positions : pyval) : result nat :=
  items ← py_iter positions;
  selected ← filter_pnl test items;
  mret (length selected).

Definition is_profitable (x : float) : bool := (0 <? x)%float.
Definition is_losing (x : float) : bool := (x <? 0)%float.

(** The three counts, in the order the source computes them. *)
Definition portfolio_counts (positions : pyval) : result (nat * nat * nat) :=
  total_positions ← py_len positions;
  profitable_positions ← count_pnl is_profitable positions;
  losing_positions ← count_pnl is_losing positions;
  mret (total_positions, profitable_positions, losing_positions).

(** One step of the loop that sums ['PnL $']; a position whose amount
    cannot be read is passed over.  The sum starts from the integer [0],
    which the first addition converts to [0.0]; both render the same. *)
Definition add_pnl (total_pnl : float) (pos : pyval) : float :=
  match v ← py_get pos "PnL $" (PyInt 0); py_float v with
  | Ok pnl => (total_pnl + pnl)%float
  | Raised _ => total_pnl
  end.

Definition summary_text (now : Z) (counts : nat * nat * nat) (total_pnl : float)
    (n_alerts : nat) (alert_counts : list (string * nat)) : text :=
  let '(total_positions, profitable_positions, losing_positions) := counts in
  [ Lit (nl +:+ "🎯 **PORTFOLIO SUMMARY - "); FmtTime "%I:%M %p CST" now;
    Lit ("**" +:+ nl +:+ nl +:+ "📊 **Positions:** "); FmtCount total_positions;
    Lit " total | ✅ "; FmtCount profitable_positions;
    Lit " profitable | ❌ "; FmtCount losing_positions;
    Lit (" losing" +:+ nl +:+ "💰 **Total PnL:** $"); FmtMoney total_pnl;
    Lit (nl +:+ nl +:+ "🚨 **Alerts ("); FmtCount n_alerts; Lit " total):**" ]
  ++ flat_map (fun '(alert_type, count) =>
       [ Lit (nl +:+ alert_emoji alert_type +:+ " "); FmtTitle alert_type;
         Lit ": "; FmtCount count ]) alert_counts.

(** [generate_portfolio_summary(positions, alerts)]. *)
Definition generate_portfolio_summary (w : World) (positions : pyval) (alerts : list alert)
  : IO text :=
  try_except
    (counts ← lift (portfolio_counts positions);
     items ← lift (py_iter positions);
     let total_pnl := foldl add_pnl 0%float items in
     let alert_counts := foldl (fun acc a => count_alert (alert_type a) acc) [] alerts in
     now ← datetime_now w;
     mret (summary_text now counts total_pnl (length alerts) alert_counts))
    (fun _ => mret [Lit "❌ Error generating portfolio summary"]).

End Summary.

(** ** The run *)

Definition write_status (w : World) (path : string) (data : alerts_data) : IO unit :=
  if can_write w path then emit (EvWrite path data) else lift (Raised OSError).

Definition alert_lines (alerts : list alert) : text :=
  flat_map (fun a => Lit (nl +:+ "• ") :: alert_message a) (take 5 alerts).

Section Run.
Context `{FloatOfStr}.

(** [run_automated_alerts()]. *)
Definition run_automated_alerts (w : World) : IO bool :=
  try_except
    (current_time ← datetime_now w;
     positions ← load_latest_positions w;
     if negb (py_truthy positions) then mret false
     else
       let alerts := analyze_positions positions in
       news_summary ← get_crypto_news_summary w;
       portfolio_summary ← generate_portfolio_summary w positions alerts;
       let portfolio_alerts :=
         List.filter (fun a => String.eqb (alert_channel a) "portfolio") alerts in
       let alpha_alerts :=
         List.filter (fun a => String.eqb (alert_channel a) "alpha") alerts in
       let portfolio_message :=
         if negb (Nat.eqb (length portfolio_alerts) 0) then
           portfolio_summary ++ [Lit (nl +:+ nl +:+ "📋 **PORTFOLIO ALERTS:**")]
           ++ alert_lines portfolio_alerts
         else portfolio_summary in
       _ ← send_discord_message w portfolio_message (PORTFOLIO_CHANNEL_ID w);
       let alpha_message :=
         [Lit ("🎯 **ALPHA HUNTING UPDATE**" +:+ nl +:+ nl)] ++ news_summary
         ++ (if negb (Nat.eqb (length alpha_alerts) 0) then
               [Lit (nl +:+ nl +:+ "🚀 **ALPHA ALERTS:**")] ++ alert_lines alpha_alerts
             else []) in
       _ ← send_discord_message w alpha_message (ALPHA_CHANNEL_ID w);
       total_positions ← lift (py_len positions);
       profitable_count ← lift (count_pnl is_profitable positions);
       losing_count ← lift (count_pnl is_losing positions);
       let data :=
         {| data_timestamp := FmtTime "%Y-%m-%d %I:%M %p CST" current_time;
            data_total_alerts := length alerts;
            data_alerts := alerts;
            data_total_positions := total_positions;
            data_profitable_count := profitable_count;
            data_losing_count := losing_count |} in
       _ ← write_status w "latest_alerts.json" data;
       mret true)
    (fun _ => mret false).

End Run.

(** ** A runtime's [float] on ASCII text *)

(** The theorems below hold for every [FloatOfStr].  To run the model on
    concrete snapshots, this module gives the parser of the Python
    runtime on ASCII text: surrounding whitespace is dropped, then
    [[sign] (number [exponent] | "inf" | "infinity" | "nan")] with
    [number ::= [digitpart] "." digitpart | digitpart ["."]],
    underscores allowed between digits, and the decimal value is rounded
    once to the nearest binary64, ties to even.  (The runtime also takes
    digits and spaces outside ASCII; such text is refused here.) *)
Module AsciiFloat.

Definition between (lo hi : nat) (c : ascii) : bool :=
  let n := nat_of_ascii c in Nat.leb lo n && Nat.leb n hi.

Definition is_space (c : ascii) : bool := between 9 13 c || between 28 32 c.

Definition digit_of (c : ascii) : option Z :=
  if between 48 57 c then Some (Z.of_nat (nat_of_ascii c - 48)) else None.

Definition lower (c : ascii) : ascii :=
  if between 65 90 c then ascii_of_nat (nat_of_ascii c + 32) else c.

Fixpoint strip_left (s : list ascii) : list ascii :=
  match s with
  | c :: rest => if is_space c then strip_left rest else s
  | [] => []
  end.

Definition strip (s : list ascii) : list ascii :=
  rev (strip_left (rev (strip_left s))).

(** An optional sign: whether it is a minus, and what follows. *)
Definition sign (s : list ascii) : bool * list ascii :=
  match s with
  | c :: rest =>
      if Ascii.eqb c "-" then (true, rest)
      else if Ascii.eqb c "+" then (false, rest)
      else (false, s)
  | [] => (false, s)
  end.

(** The digits after the first of a [digitpart]: [m] is the number read
    so far and [n] how many digits it has. *)
Fixpoint digits_tail (m : Z) (n : nat) (s : list ascii) : Z * nat * list ascii :=
  match s with
  | c :: rest =>
      match digit_of c with
      | Some d => digits_tail (10 * m + d)%Z (S n) rest
      | None =>
          if Ascii.eqb c "_" then
            match rest with
            | c' :: rest' =>
                match digit_of c' with
                | Some d => digits_tail (10 * m + d)%Z (S n) rest'
                | None => (m, n, s)
                end
            | [] => (m, n, s)
            end
          else (m, n, s)
      end
  | [] => (m, n, s)
  end.

(** A [digitpart] appended to the digits [m]: the number, the count of
    digits read, and the rest of the text. *)
Definition digitpart (m : Z) (s : list ascii) : option (Z * nat * list ascii) :=
  match s with
  | c :: rest =>
      match digit_of c with
      | Some d => Some (digits_tail (10 * m + d)%Z 1 rest)
      | None => None
      end
  | [] => None
  end.

(** A [number]: all its digits as one integer, and how many of them
    stand after the point. *)
Definition number (s : list ascii) : option (Z * nat * list ascii) :=
  match digitpart 0 s with
  | Some (m, _, rest) =>
      match rest with
      | c :: rest' =>
          if Ascii.eqb c "." then
            match digitpart m rest' with
            | Some r => Some r
            | None => Some (m, 0, rest')
            end
          else Some (m, 0, rest)
      | [] => Some (m, 0, rest)
      end
  | None =>
      match s with
      | c :: rest' => if Ascii.eqb c "." then digitpart 0 rest' else None
      | [] => None
      end
  end.

(** What follows the number, up to the end of the text: nothing, or an
    exponent. *)
Definition exponent (s : list ascii) : option Z :=
  match s with
  | [] => Some 0%Z
  | c :: rest =>
      if Ascii.eqb (lower c) "e" then
        let '(neg, rest) := sign rest in
        match digitpart 0 rest with
        | Some (e, _, []) => Some (if neg then (- e)%Z else e)
        | _ => None
        end
      else None
  end.

(** The binary64 nearest to [±m * 10^e10]. *)
Definition decimal_value (neg : bool) (m : Z) (e10 : Z) : float :=
  match m with
  | Zpos p =>
      if (0 <=? e10)%Z then
        SF2Prim (binary_normalize prec emax
                   (if neg then (- (m * 10 ^ e10))%Z else (m * 10 ^ e10)%Z) 0 false)
      else
        SF2Prim (SFdiv prec emax (S754_finite neg p 0)
                   (S754_finite false (Z.to_pos (10 ^ (- e10))) 0))
  | _ => if neg then neg_zero else zero
  end.

Definition parse (s : string) : option float :=
  let '(neg, body) := sign (strip (list_ascii_of_string s)) in
  let word := string_of_list_ascii (lower <$> body) in
  if String.eqb word "inf" || String.eqb word "infinity" then
    Some (if neg then neg_infinity else infinity)
  else if String.eqb word "nan" then Some nan
  else
    match number body with
    | Some (m, k, rest) =>
        match exponent rest with
        | Some e => Some (decimal_value neg m (e - Z.of_nat k))
        | None => None
        end
    | None => None
    end.

End AsciiFloat.

Definition ascii_float_of_str : FloatOfStr := AsciiFloat.parse.

(** ** Vocabulary of the properties *)

(** The three groups of the rule table. *)
Definition profit_loss_kind (a : alert) : bool :=
  String.eqb (alert_type a) "high_profit" || String.eqb (alert_type a) "losing_trade".

Definition oscillator_kind (a : alert) : bool :=
  String.eqb (alert_type a) "oversold" || String.eqb (alert_type a) "overbought".

Definition stop_loss_kind (a : alert) : bool :=
  String.eqb (alert_type a) "no_stop_loss".

Definition count_kind (kind : alert → bool) (alerts : list alert) : nat :=
  length (List.filter kind alerts).

(** What one position may add: at most one alert of each group. *)
Definition one_per_group (new : list alert) : Prop :=
  count_kind profit_loss_kind new ≤ 1
  ∧ count_kind oscillator_kind new ≤ 1
  ∧ count_kind stop_loss_kind new ≤ 1.

(** Kind and destination of an alert. *)
Definition kind_and_channel (a : alert) : string * string :=
  (alert_type a, alert_channel a).

(** How many positions a sequence holds (none when it is no sequence). *)
Definition position_count (positions : pyval) : nat :=
  match py_iter positions with
  | Ok items => length items
  | Raised _ => 0
  end.

Section Vocabulary.
Context `{FloatOfStr}.

(** A field of a position record as a number, with the default the
    source gives an absent field. *)
Definition field_float (d : gmap string pyval) (key : string) : result float :=
  py_float (default (PyInt 0) (d !! key)).

(** The PnL percent of a position. *)
Definition pnl_percent_of (pos : pyval) : result float :=
  v ← py_get pos "PnL %" (PyInt 0); py_float v.

(** Whether the PnL percent of a position is a number that passes
    [test]. *)
Definition has_pnl (test : float → bool) (pos : pyval) : bool :=
  match pnl_percent_of pos with
  | Ok x => test x
  | Raised _ => false
  end.

(** What the loader's loop stores for a value [v] found under a numeric
    key. *)
Definition coerced (v : pyval) : pyval :=
  if py_truthy v then
    match py_float v with
    | Ok x => PyFloat x
    | Raised _ => PyFloat 0%float
    end
  else v.

End Vocabulary.

Definition is_2xx (status_code : Z) : bool :=
  (200 <=? status_code)%Z && (status_code <? 300)%Z.

(** The request [send_discord_message] makes, and the answer the network
    gives to it after the events [tr]. *)
Definition posted (w : World) (message : text) (channel_id : string) : event :=
  EvPost (discord_url channel_id) (authorization_header w) message.

Definition answer (w : World) (tr : list event) (message : text) (channel_id : string)
  : net_outcome :=
  http_post w tr (discord_url channel_id) (authorization_header w) message.

(** What the loader returns for the outcome of reading the chosen
    structured file: its contents when they have a length, and the empty
    list otherwise. *)
Definition loaded_or_empty (contents : result pyval) : pyval :=
  match contents with
  | Ok positions => if is_ok (py_len positions) then positions else PyList []
  | Raised _ => PyList []
  end.

(** Events that read the local directory or a local file. *)
Definition is_local_read (e : event) : bool :=
  match e with
  | EvGlob _ | EvOpenRead _ => true
  | _ => false
  end.

(** ** Concrete snapshots *)

(** Positions and worlds on which the model is run below. *)
Module Examples.

(** [{'PnL %': -20, 'Margin Size ($)': 50, 'SL Set?': '✅'}] *)
Definition losing_position : gmap string pyval :=
  <["PnL %" := PyInt (-20)]> (<["Margin Size ($)" := PyInt 50]>
  (<["SL Set?" := PyStr "✅"]> ∅)).

(** [{'PnL %': 60.0, 'Margin Size ($)': '200'}], with no ['SL Set?'] key. *)
Definition winning_position : gmap string pyval :=
  <["PnL %" := PyFloat 60]> (<["Margin Size ($)" := PyStr "200"]> ∅).

(** [{'Symbol': 'ETH', 'PnL %': 'N/A', 'Margin Size ($)': 500}] *)
Definition unreadable_position : gmap string pyval :=
  <["Symbol" := PyStr "ETH"]> (<["PnL %" := PyStr "N/A"]>
  (<["Margin Size ($)" := PyInt 500]> ∅)).

(** [{'PnL %': x}] *)
Definition with_pnl_percent (x : float) : pyval :=
  PyDict (<["PnL %" := PyFloat x]> ∅).

(** [[{'PnL %': 10.0}, {'Symbol': 'ETH', 'PnL %': 'N/A', 'Margin Size ($)': 500}]] *)
Definition half_readable : list pyval :=
  [with_pnl_percent 10; PyDict unreadable_position].

(** A world described by its directory, creation times and file
    contents; nothing else is configured and the network refuses every
    request. *)
Definition world_of (names : list string) (ctime : string → Z)
    (json : string → result pyval) (csv : string → result (list (gmap string pyval)))
  : World :=
  {| DISCORD_TOKEN := None;
     ALPHA_CHANNEL_ID := "1399790636990857277";
     PORTFOLIO_CHANNEL_ID := "1399451217372905584";
     listing := names;
     getctime := ctime;
     read_json := json;
     read_csv := csv;
     http_post := fun _ _ _ _ => NetRaised RequestException;
     news_digest := [Lit "📰 Crypto news module not available"];
     clock := fun _ => 0%Z;
     can_write := fun _ => true |}.

(** An empty working directory. *)
Definition empty_world : World :=
  world_of [] (fun _ => 0%Z) (fun _ => Raised OSError) (fun _ => Raised OSError).

(** Two structured snapshots and a newer tabular one. *)
Definition mixed_world : World :=
  world_of
    ["positions_old.json"; "positions_new.csv"; "positions_new.json"; "notes.txt"]
    (fun name =>
       if String.eqb name "positions_old.json" then 100%Z
       else if String.eqb name "positions_new.json" then 200%Z
       else 300%Z)
    (fun name =>
       if String.eqb name "positions_new.json" then Ok (PyList [PyDict losing_position])
       else Ok (PyList []))
    (fun _ => Ok [winning_position]).

(** One tabular snapshot with the row
    [Symbol,PnL %,PnL $,Entry Price] = [DOGE,abc,,0.25]. *)
Definition csv_row : gmap string pyval :=
  <["Symbol" := PyStr "DOGE"]> (<["PnL %" := PyStr "abc"]>
  (<["PnL $" := PyStr ""]> (<["Entry Price" := PyStr "0.25"]> ∅))).

Definition csv_world : World :=
  world_of ["positions_1.csv"] (fun _ => 0%Z) (fun _ => Raised OSError)
    (fun _ => Ok [csv_row]).

(** A configured notifier whose requests are answered with [status_code]. *)
Definition answering_world (status_code : Z) : World :=
  {| DISCORD_TOKEN := Some "token";
     ALPHA_CHANNEL_ID := "1399790636990857277";
     PORTFOLIO_CHANNEL_ID := "1399451217372905584";
     listing := [];
     getctime := fun _ => 0%Z;
     read_json := fun _ => Raised OSError;
     read_csv := fun _ => Raised OSError;
     http_post := fun _ _ _ _ => Response status_code;
     news_digest := [];
     clock := fun _ => 0%Z;
     can_write := fun _ => true |}.

(** [mixed_world] with a token configured and a network that accepts
    every request. *)
Definition live_world : World :=
  {| DISCORD_TOKEN := Some "token";
     ALPHA_CHANNEL_ID := ALPHA_CHANNEL_ID mixed_world;
     PORTFOLIO_CHANNEL_ID := PORTFOLIO_CHANNEL_ID mixed_world;
     listing := listing mixed_world;
     getctime := getctime mixed_world;
     read_json := read_json mixed_world;
     read_csv := read_csv mixed_world;
     http_post := fun _ _ _ _ => Response 200;
     news_digest := news_digest mixed_world;
     clock := clock mixed_world;
     can_write := can_write mixed_world |}.

(** A configured world whose only snapshot holds [unreadable_position]. *)
Definition unreadable_world : World :=
  {| DISCORD_TOKEN := Some "token";
     ALPHA_CHANNEL_ID := "1399790636990857277";
     PORTFOLIO_CHANNEL_ID := "1399451217372905584";
     listing := ["positions_1.json"];
     getctime := fun _ => 0%Z;
     read_json := fun _ => Ok (PyList [PyDict unreadable_position]);
     read_csv := fun _ => Raised OSError;
     http_post := fun _ _ _ _ => Response 200;
     news_digest := [];
     clock := fun _ => 0%Z;
     can_write := fun _ => true |}.

End Examples.

(** ** The news digest, from what the collaborator returns *)

(** The body of [get_crypto_news_summary] as a function of what
    importing and calling [get_breaking_news_optimized] gives: a value,
    or an exception (the module is absent, the call fails). *)

(** The first [n] characters of a text kept as UTF-8 bytes: a character
    is a byte that is no continuation byte ([10xxxxxx]) with the
    continuation bytes after it. *)
Definition is_continuation (c : ascii) : bool :=
  let n := nat_of_ascii c in Nat.leb 128 n && Nat.ltb n 192.

Fixpoint utf8_take (n : nat) (s : string) : string :=
  match s with
  | EmptyString => EmptyString
  | String c rest =>
      if is_continuation c then String c (utf8_take n rest)
      else
        match n with
        | 0 => EmptyString
        | S n' => String c (utf8_take n' rest)
        end
  end.

(** The number of characters of a text kept as UTF-8 bytes. *)
Fixpoint utf8_length (s : string) : nat :=
  match s with
  | EmptyString => 0
  | String c rest => if is_continuation c then utf8_length rest else S (utf8_length rest)
  end.

(** [v[:100]]: texts and lists can be sliced. *)
Definition py_slice_100 (v : pyval) : result pyval :=
  match v with
  | PyStr s => Ok (PyStr (utf8_take 100 s))
  | PyList l => Ok (PyList (take 100 l))
  | _ => Raised TypeError
  end.

(** [news[0]] where it is reached, on a list that is not empty. *)
Definition py_first (v : pyval) : result pyval :=
  match v with
  | PyList (x :: _) => Ok x
  | _ => Raised TypeError
  end.

(** The comprehension [[n for n in items if n.get('sentiment') == label]]. *)
Fixpoint filter_sentiment (label : string) (items : list pyval) : result (list pyval) :=
  match items with
  | [] => Ok []
  | n :: rest =>
      sentiment ← py_get n "sentiment" PyNone;
      selected ← filter_sentiment label rest;
      mret (if py_eq_str sentiment label then n :: selected else selected)
  end.

Definition news_unavailable : text := [Lit "📰 Crypto news module not available"].
Definition no_recent_news : text := [Lit "📰 No recent crypto news available"].

Definition news_lines (articles bullish_count bearish_count : nat) (headline : pyval)
  : text :=
  [ Lit "📰 News: "; FmtCount articles; Lit " articles | 📈 Bullish: ";
    FmtCount bullish_count; Lit " | 📉 Bearish: "; FmtCount bearish_count;
    Lit (nl +:+ "🔥 Breaking: "); FmtValue headline; Lit "..." ].

Definition news_summary_from (collaborator : result pyval) : text :=
  match
    news ← collaborator;
    if py_truthy news then
      items ← py_iter news;
      bullish ← filter_sentiment "Positive" items;
      bearish ← filter_sentiment "Negative" items;
      articles ← py_len news;
      top_news ← py_first news;
      title ← py_get top_news "title" (PyStr "");
      headline ← py_slice_100 title;
      mret (news_lines articles (length bullish) (length bearish) headline)
    else mret no_recent_news
  with
  | Ok summary => summary
  | Raised _ => news_unavailable
  end.

(** ** Vocabulary of the further properties *)

(** Position records are the dictionaries among the values. *)
Definition is_record (v : pyval) : bool :=
  match v with
  | PyDict _ => true
  | _ => false
  end.

Definition has_type (kind : string) (a : alert) : bool :=
  String.eqb (alert_type a) kind.

Definition alert_kinds : list string :=
  ["high_profit"; "losing_trade"; "oversold"; "overbought"; "no_stop_loss"].

(** The channel and the simulated oscillator value that go with a kind
    of alert in the rule table. *)
Definition expected_channel (kind : string) : string :=
  if String.eqb kind "oversold" || String.eqb kind "overbought" then "alpha"
  else "portfolio".

Definition expected_rsi (kind : string) : option Z :=
  if String.eqb kind "oversold" then Some 20%Z
  else if String.eqb kind "overbought" then Some 85%Z
  else None.

(** An alert as the rule table makes it: one of the five kinds, on the
    channel of its kind, with the oscillator value of its kind, with a
    ['pnl'] entry unless it is a stop-loss warning, with a ['margin']
    entry when it is a losing trade or a stop-loss warning, and with an
    emoji of its own in the summary. *)
Definition well_formed (a : alert) : bool :=
  existsb (String.eqb (alert_type a)) alert_kinds
  && String.eqb (alert_channel a) (expected_channel (alert_type a))
  && bool_decide (alert_rsi a = expected_rsi (alert_type a))
  && Bool.eqb (bool_decide (is_Some (alert_pnl a)))
       (negb (String.eqb (alert_type a) "no_stop_loss"))
  && Bool.eqb (bool_decide (is_Some (alert_margin a)))
       (String.eqb (alert_type a) "losing_trade"
        || String.eqb (alert_type a) "no_stop_loss")
  && negb (String.eqb (alert_emoji (alert_type a)) "⚠️").

(** The two lists [run_automated_alerts] routes the alerts into. *)
Definition for_channel (channel : string) (alerts : list alert) : list alert :=
  List.filter (fun a => String.eqb (alert_channel a) channel) alerts.

(** The dictionary of alert counts built by the summary, and
    [alert_counts.get(kind, 0)] on it. *)
Definition alert_histogram (alerts : list alert) : list (string * nat) :=
  foldl (fun acc a => count_alert (alert_type a) acc) [] alerts.

Fixpoint histogram_count (kind : string) (alert_counts : list (string * nat)) : nat :=
  match alert_counts with
  | [] => 0
  | (k, n) :: rest => if String.eqb k kind then n else histogram_count kind rest
  end.

(** Whether a news item is a record labelled [label]. *)
Definition has_sentiment (label : string) (item : pyval) : bool :=
  match py_get item "sentiment" PyNone with
  | Ok sentiment => py_eq_str sentiment label
  | Raised _ => false
  end.

Definition is_open (e : event) : bool :=
  match e with
  | EvOpenRead _ => true
  | _ => false
  end.

Section FurtherVocabulary.
Context `{FloatOfStr}.

(** The PnL dollar amount of a position, as the summing loop reads it. *)
Definition pnl_dollar_of (pos : pyval) : result float :=
  v ← py_get pos "PnL $" (PyInt 0); py_float v.

(** The number a value under a numeric key stands for once the loader
    has been over it: its number, or zero when it has none. *)
Definition number_or_zero (v : pyval) : float :=
  match py_float v with
  | Ok x => x
  | Raised _ => 0%float
  end.

(** The number the rules see under [key] in a converted record whose
    value there is absent or not empty. *)
Definition cell_number (row : gmap string pyval) (key : string) : float :=
  match row !! key with
  | Some v => number_or_zero v
  | None => 0%float
  end.

End FurtherVocabulary.

(** The text [generate_portfolio_summary] returns when it fails. *)
Definition summary_error : text := [Lit "❌ Error generating portfolio summary"].

(** The two messages of a run, from the summary, the news digest and the
    alerts, and the dictionary it writes to the status file. *)
Definition portfolio_message_of (portfolio_summary : text) (alerts : list alert) : text :=
  if negb (Nat.eqb (length (for_channel "portfolio" alerts)) 0) then
    portfolio_summary ++ [Lit (nl +:+ nl +:+ "📋 **PORTFOLIO ALERTS:**")]
    ++ alert_lines (for_channel "portfolio" alerts)
  else portfolio_summary.

Definition alpha_message_of (news_summary : text) (alerts : list alert) : text :=
  [Lit ("🎯 **ALPHA HUNTING UPDATE**" +:+ nl +:+ nl)] ++ news_summary
  ++ (if negb (Nat.eqb (length (for_channel "alpha" alerts)) 0) then
        [Lit (nl +:+ nl +:+ "🚀 **ALPHA ALERTS:**")]
        ++ alert_lines (for_channel "alpha" alerts)
      else []).

Definition status_data (current_time : Z) (alerts : list alert) (counts : nat * nat * nat)
  : alerts_data :=
  {| data_timestamp := FmtTime "%Y-%m-%d %I:%M %p CST" current_time;
     data_total_alerts := length alerts;
     data_alerts := alerts;
     data_total_positions := counts.1.1;
     data_profitable_count := counts.1.2;
     data_losing_count := counts.2 |}.

(** The requests a configured notifier makes for one message: one; an
    unconfigured one makes none. *)
Definition requests_for (w : World) (message : text) (channel_id : string) : list event :=
  if token_configured (DISCORD_TOKEN w) then [posted w message channel_id] else [].

(** ** More snapshots *)

Module MoreExamples.

(** The row [Symbol,PnL %,PnL $,Margin Size ($)] = [DOGE,N/A,12.5,250] of
    a tabular snapshot, with no [SL Set?] column. *)
Definition text_row : gmap string pyval :=
  <["Symbol" := PyStr "DOGE"]> (<["PnL %" := PyStr "N/A"]>
  (<["PnL $" := PyStr "12.5"]> (<["Margin Size ($)" := PyStr "250"]> ∅))).


(** Two news items:
    [{'title': 'Bitcoin breaks out ❌', 'sentiment': 'Positive'}] and
    [{'sentiment': 'Neutral'}]. *)
Definition headline_item : gmap string pyval :=
  <["title" := PyStr "Bitcoin breaks out ❌"]> (<["sentiment" := PyStr "Positive"]> ∅).

Definition quiet_item : gmap string pyval :=
  <["sentiment" := PyStr "Neutral"]> ∅.

End MoreExamples.

(** ** Proof steps *)

(** Case analysis on every test of a rule left in the goal. *)
Ltac split_rules :=
  repeat match goal with
         | |- context [if ?b then _ else _] => destruct b
         end.

(** * Properties *)

(** ** The model at work *)

Example float_of_int_rounds_to_even :
  float_of_int 9007199254740993 = Some 9007199254740992%float
  ∧ float_of_int (2 ^ 1024) = None
  ∧ float_of_int (-20) = Some (-20)%float.
Proof. repeat split; reflexivity. Qed.

Example ascii_float_accepts :
  AsciiFloat.parse "-20" = Some (-20)%float
  ∧ AsciiFloat.parse " 1_002.5e-1 " = Some 100.25%float
  ∧ AsciiFloat.parse "+.5" = Some 0.5%float
  ∧ AsciiFloat.parse "-Infinity" = Some neg_infinity
  ∧ AsciiFloat.parse "NaN" = Some nan
  ∧ AsciiFloat.parse "1e999" = Some infinity.
Proof. repeat split; vm_compute; reflexivity. Qed.

Example ascii_float_refuses :
  AsciiFloat.parse <$> [""; "   "; "abc"; "N/A"; "."; "1__0"; "_1"; "1e"; "0x10"; "1,5"]
  = replicate 10 None.
Proof. reflexivity. Qed.

Example fnmatch_star_names :
  fnmatch_star "positions_" ".json"
    <$> ["positions_2024.json"; "positions_.json"; "positions_a.csv";
         "old_positions_a.json"; "positions_a.json.bak"; ".json"]
  = [true; true; false; false; false; false].
Proof. reflexivity. Qed.

(** Among equal keys the builtin [max] keeps the first item. *)
Example py_max_keeps_first :
  py_max (fun name => Z.of_nat (String.length name)) ["bb"; "a"; "cc"; "dd"] = Ok "bb".
Proof. reflexivity. Qed.

(** A run that goes through: both messages are posted and the status
    file is written, with the alerts of the newest structured snapshot. *)
Example run_posts_and_writes :
  let '(returned, tr) := @run_automated_alerts ascii_float_of_str Examples.live_world [] in
  returned = Ok true
  ∧ is_local_read <$> tr = [true; true; false; false; false; false]
  ∧ is_post <$> tr = [false; false; false; true; true; false]
  ∧ is_write <$> tr = [false; false; false; false; false; true].
Proof. vm_compute. repeat split; reflexivity. Qed.

(** A run over a position whose PnL percent cannot be read: no alert,
    the summary is the error text, both messages are still posted, and
    computing the counts for the status file raises, so that nothing is
    written and the run returns false. *)
Example run_over_unreadable_position :
  let '(returned, tr) :=
    @run_automated_alerts ascii_float_of_str Examples.unreadable_world [] in
  returned = Ok false
  ∧ is_post <$> tr = [false; false; false; true; true]
  ∧ is_write <$> tr = [false; false; false; false; false].
Proof. vm_compute. repeat split; reflexivity. Qed.

(** ** The rule evaluator *)

Section EvaluatorProperties.
Context `{FloatOfStr}.

(** The loop body only appends: what it adds to [alerts] is what it
    yields from the empty list. *)
Lemma analyze_position_appends (alerts : list alert) (pos : pyval) :
  analyze_position alerts pos = app alerts <$> analyze_position [] pos.
Proof.
  unfold analyze_position.
  destruct pos; try reflexivity. cbn.
  destruct (coerce_fields _ _ _) as [[[pnl_percent pnl_dollar] margin]|e]; cbn.
  - split_rules; cbn; rewrite <- ?app_assoc, ?app_nil_r; reflexivity.
  - by rewrite app_nil_r.
Qed.

(** A position adds at most one alert of each group. *)
Lemma analyze_position_groups (pos : pyval) (new : list alert) :
  analyze_position [] pos = Ok new →
  count_kind profit_loss_kind new ≤ 1
  ∧ count_kind oscillator_kind new ≤ 1
  ∧ count_kind stop_loss_kind new ≤ 1
  ∧ length new
    = count_kind profit_loss_kind new + count_kind oscillator_kind new
      + count_kind stop_loss_kind new.
Proof.
  unfold analyze_position.
  destruct pos; try discriminate. cbn.
  destruct (coerce_fields _ _ _) as [[[pnl_percent pnl_dollar] margin]|e]; cbn.
  - split_rules; intros [= <-]; cbn; lia.
  - intros [= <-]. cbn. lia.
Qed.

Lemma analyze_position_length (pos : pyval) (new : list alert) :
  analyze_position [] pos = Ok new → length new ≤ 3.
Proof.
  intros Hnew. destruct (analyze_position_groups _ _ Hnew) as (? & ? & ? & ->). lia.
Qed.

Lemma analyze_positions_list (items : list pyval) :
  analyze_positions (PyList items)
  = match analyze_loop [] items with
    | Ok alerts => alerts
    | Raised _ => []
    end.
Proof. reflexivity. Qed.

Lemma analyze_loop_cons (alerts : list alert) (pos : pyval) (rest : list pyval) :
  analyze_loop alerts (pos :: rest)
  = alerts' ← analyze_position alerts pos; analyze_loop alerts' rest.
Proof. reflexivity. Qed.

(** The loop over a concatenation is the loop over its parts. *)
Lemma analyze_loop_app (alerts : list alert) (items1 items2 : list pyval) :
  analyze_loop alerts (items1 ++ items2)
  = alerts' ← analyze_loop alerts items1; analyze_loop alerts' items2.
Proof.
  revert alerts. induction items1 as [|pos items1 IH]; intros alerts; [done|].
  cbn. destruct (analyze_position alerts pos) as [alerts'|e]; cbn; [apply IH|done].
Qed.

Lemma analyze_loop_length (items : list pyval) (alerts alerts' : list alert) :
  analyze_loop alerts items = Ok alerts' →
  length alerts' ≤ length alerts + 3 * length items.
Proof.
  revert alerts. induction items as [|pos items IH]; intros alerts; cbn.
  - intros [= <-]. lia.
  - rewrite analyze_position_appends.
    destruct (analyze_position [] pos) as [new|e] eqn:Hnew; cbn; [|done].
    intros Hrest. apply IH in Hrest. apply analyze_position_length in Hnew.
    rewrite length_app in Hrest. lia.
Qed.

(** A position with a field that cannot be read as a number leaves the
    list of alerts as it was. *)
Lemma analyze_position_skips (alerts : list alert) (d : gmap string pyval) :
  is_ok (field_float d "PnL %") = false
  ∨ is_ok (field_float d "PnL $") = false
  ∨ is_ok (field_float d "Margin Size ($)") = false →
  analyze_position alerts (PyDict d) = Ok alerts.
Proof.
  unfold field_float, analyze_position, coerce_fields. cbn.
  destruct (py_float (default (PyInt 0) (d !! "PnL %"))); cbn;
    destruct (py_float (default (PyInt 0) (d !! "PnL $"))); cbn;
    destruct (py_float (default (PyInt 0) (d !! "Margin Size ($)"))); cbn;
    intros [?|[?|?]]; done.
Qed.

(** What the evaluator yields for one position whose three fields are
    numbers, as a function of the two numbers the rules look at and of
    the stop-loss test. *)
Lemma analyze_single (d : gmap string pyval) (pnl_percent pnl_dollar margin : float) :
  field_float d "PnL %" = Ok pnl_percent →
  field_float d "PnL $" = Ok pnl_dollar →
  field_float d "Margin Size ($)" = Ok margin →
  kind_and_channel <$> analyze_positions (PyList [PyDict d])
  = (if (50 <? pnl_percent)%float then [("high_profit", "portfolio")]
     else if (pnl_percent <? -10)%float then [("losing_trade", "portfolio")]
     else [])
    ++ (if (pnl_percent <? -15)%float then [("oversold", "alpha")]
        else if (80 <? pnl_percent)%float then [("overbought", "alpha")]
        else [])
    ++ (if py_eq_str (default (PyStr "❌") (d !! "SL Set?")) "❌"
           && (100 <? margin)%float
        then [("no_stop_loss", "portfolio")] else []).
Proof.
  unfold field_float. intros Hpercent Hdollar Hmargin.
  unfold analyze_positions, analyze_position. cbn.
  unfold coerce_fields. rewrite Hpercent, Hdollar, Hmargin. cbn.
  split_rules; reflexivity.
Qed.

End EvaluatorProperties.

Section EvaluatorTheorems.
Context `{FloatOfStr}.

Lemma analyze_loop_per_position (items : list pyval) (alerts alerts' : list alert) :
  analyze_loop alerts items = Ok alerts' →
  ∃ per_position : list (list alert),
    alerts' = alerts ++ concat per_position
    ∧ length per_position = length items
    ∧ Forall one_per_group per_position.
Proof.
  revert alerts. induction items as [|pos items IH]; intros alerts; cbn.
  - intros [= <-]. exists []. by rewrite app_nil_r.
  - rewrite analyze_position_appends.
    destruct (analyze_position [] pos) as [new|e] eqn:Hnew; cbn; [|done].
    intros (per_position & -> & Hlen & Hall)%IH.
    exists (new :: per_position). cbn. rewrite app_assoc. split_and!; [done|lia|].
    constructor; [|done].
    destruct (analyze_position_groups _ _ Hnew) as (? & ? & ? & _). by repeat split.
Qed.

(** C1: for every position sequence the evaluator yields at most three
    alerts per position, hence at most five per position too; the alerts
    split into one batch per position, and a batch holds at most one
    profit/loss alert, at most one oscillator alert and at most one
    stop-loss alert. *)
Theorem C1_alert_count_bound (positions : pyval) :
  length (analyze_positions positions) ≤ 3 * position_count positions
  ∧ length (analyze_positions positions) ≤ 5 * position_count positions
  ∧ ∃ per_position : list (list alert),
      analyze_positions positions = concat per_position
      ∧ length per_position = position_count positions
      ∧ Forall one_per_group per_position.
Proof.
  unfold analyze_positions, position_count.
  destruct (py_iter positions) as [items|e]; cbn.
  - destruct (analyze_loop [] items) as [alerts|e] eqn:Hloop.
    + pose proof (analyze_loop_length _ _ _ Hloop) as Hlen. cbn in Hlen.
      split_and!; [lia..|].
      destruct (analyze_loop_per_position _ _ _ Hloop) as (pp & -> & ? & ?).
      by exists pp.
    + cbn. split_and!; [lia..|].
      exists (replicate (length items) []). split_and!.
      * induction (length items); cbn; done.
      * by rewrite length_replicate.
      * apply Forall_replicate. unfold one_per_group. cbn. lia.
  - split_and!; [lia..|]. by exists [].
Qed.

(** C2: a position with PnL percent -20 and margin 50 (whose PnL dollar
    amount is a number or absent) yields exactly two alerts, in this
    order: [losing_trade] for the portfolio channel and [oversold] for
    the alpha channel.  With a margin of 50 this holds whatever the
    stop-loss flag is, so in particular when it is present. *)
Theorem C2_losing_trade_and_oversold (d : gmap string pyval) :
  field_float d "PnL %" = Ok (-20)%float →
  is_ok (field_float d "PnL $") = true →
  field_float d "Margin Size ($)" = Ok 50%float →
  kind_and_channel <$> analyze_positions (PyList [PyDict d])
  = [("losing_trade", "portfolio"); ("oversold", "alpha")].
Proof.
  intros Hpercent Hdollar Hmargin.
  destruct (field_float d "PnL $") as [pnl_dollar|] eqn:Hd; [|done].
  rewrite (analyze_single d _ _ _ Hpercent Hd Hmargin).
  by rewrite andb_false_r.
Qed.

(** C3: a position with PnL percent 60, margin 200 and no stop-loss flag
    (the key is absent, or holds the absent marker) yields exactly two
    alerts, [high_profit] and [no_stop_loss], both for the portfolio
    channel, and no oscillator alert. *)
Theorem C3_high_profit_and_no_stop_loss (d : gmap string pyval) :
  field_float d "PnL %" = Ok 60%float →
  is_ok (field_float d "PnL $") = true →
  field_float d "Margin Size ($)" = Ok 200%float →
  py_eq_str (default (PyStr "❌") (d !! "SL Set?")) "❌" = true →
  kind_and_channel <$> analyze_positions (PyList [PyDict d])
  = [("high_profit", "portfolio"); ("no_stop_loss", "portfolio")]
  ∧ count_kind oscillator_kind (analyze_positions (PyList [PyDict d])) = 0.
Proof.
  intros Hpercent Hdollar Hmargin Hflag.
  destruct (field_float d "PnL $") as [pnl_dollar|] eqn:Hd; [|done].
  pose proof (analyze_single d _ _ _ Hpercent Hd Hmargin) as Hkinds.
  rewrite Hflag in Hkinds. cbn in Hkinds. split; [done|].
  unfold count_kind.
  destruct (analyze_positions (PyList [PyDict d])) as [|a1 [|a2 [|a3 rest]]];
    try discriminate.
  injection Hkinds as Hk1 _ Hk2 _.
  unfold oscillator_kind. cbn. by rewrite Hk1, Hk2.
Qed.

(** C8: a position whose PnL percent, PnL dollar amount or margin cannot
    be read as a number yields no alert at all, and the positions before
    and after it are evaluated as if it were not there. *)
Theorem C8_unreadable_position_skipped
    (d : gmap string pyval) (before after : list pyval) :
  is_ok (field_float d "PnL %") = false
  ∨ is_ok (field_float d "PnL $") = false
  ∨ is_ok (field_float d "Margin Size ($)") = false →
  analyze_positions (PyList [PyDict d]) = []
  ∧ analyze_positions (PyList (before ++ PyDict d :: after))
    = analyze_positions (PyList (before ++ after)).
Proof.
  intros Hbad. rewrite !analyze_positions_list. split.
  - by rewrite analyze_loop_cons, (analyze_position_skips [] d Hbad).
  - rewrite !analyze_loop_app.
    destruct (analyze_loop [] before) as [alerts|e]; [|done].
    unfold mbind, result_bind. cbv beta iota.
    by rewrite analyze_loop_cons, (analyze_position_skips alerts d Hbad).
Qed.

End EvaluatorTheorems.

(** The evaluator run on concrete positions, with the runtime's parser. *)

Lemma C2_losing_position_alerts :
  kind_and_channel
    <$> @analyze_positions ascii_float_of_str (PyList [PyDict Examples.losing_position])
  = [("losing_trade", "portfolio"); ("oversold", "alpha")].
Proof.
  apply (@C2_losing_trade_and_oversold ascii_float_of_str Examples.losing_position);
    reflexivity.
Defined.

Lemma C3_winning_position_alerts :
  kind_and_channel
    <$> @analyze_positions ascii_float_of_str (PyList [PyDict Examples.winning_position])
  = [("high_profit", "portfolio"); ("no_stop_loss", "portfolio")]
  ∧ count_kind oscillator_kind
      (@analyze_positions ascii_float_of_str (PyList [PyDict Examples.winning_position]))
    = 0.
Proof.
  apply (@C3_high_profit_and_no_stop_loss ascii_float_of_str Examples.winning_position);
    reflexivity.
Defined.

Lemma C8_unreadable_between_two :
  @analyze_positions ascii_float_of_str (PyList [PyDict Examples.unreadable_position]) = []
  ∧ @analyze_positions ascii_float_of_str
      (PyList ([PyDict Examples.losing_position]
               ++ PyDict Examples.unreadable_position
               :: [PyDict Examples.winning_position]))
    = @analyze_positions ascii_float_of_str
        (PyList ([PyDict Examples.losing_position] ++ [PyDict Examples.winning_position])).
Proof.
  apply (@C8_unreadable_position_skipped ascii_float_of_str Examples.unreadable_position).
  left. reflexivity.
Defined.

(** ** The summary formatter *)

Section SummaryProperties.
Context `{FloatOfStr}.

(** When every PnL percent can be read, the comprehension keeps the
    positions that pass the test, in order. *)
Lemma filter_pnl_readable (test : float → bool) (items : list pyval) :
  Forall (fun pos => is_ok (pnl_percent_of pos) = true) items →
  filter_pnl test items = Ok (List.filter (has_pnl test) items).
Proof.
  induction 1 as [|pos items Hpos _ IH]; [done|].
  cbn [filter_pnl List.filter]. unfold has_pnl at 1.
  unfold pnl_percent_of in *.
  destruct (py_get pos "PnL %" (PyInt 0)) as [v|]; cbn in *; [|done].
  destruct (py_float v) as [x|]; cbn in *; [|done].
  rewrite IH. cbn. by destruct (test x).
Qed.

(** One position whose PnL percent cannot be read makes the
    comprehension raise. *)
Lemma filter_pnl_unreadable (test : float → bool) (items : list pyval) :
  Exists (fun pos => is_ok (pnl_percent_of pos) = false) items →
  is_ok (filter_pnl test items) = false.
Proof.
  induction 1 as [pos items Hpos|pos items _ IH]; cbn [filter_pnl];
    unfold pnl_percent_of in *;
    destruct (py_get pos "PnL %" (PyInt 0)) as [v|]; cbn in *; try done;
    destruct (py_float v) as [x|]; cbn in *; try done.
  destruct (filter_pnl test items); cbn in *; done.
Qed.

Lemma portfolio_counts_unreadable (items : list pyval) :
  Exists (fun pos => is_ok (pnl_percent_of pos) = false) items →
  is_ok (portfolio_counts (PyList items)) = false.
Proof.
  intros Hsome. unfold portfolio_counts, count_pnl. cbn.
  pose proof (filter_pnl_unreadable is_profitable items Hsome) as Hraised.
  by destruct (filter_pnl is_profitable items).
Qed.

Lemma portfolio_counts_readable (items : list pyval) :
  Forall (fun pos => is_ok (pnl_percent_of pos) = true) items →
  portfolio_counts (PyList items)
  = Ok (length items,
        length (List.filter (has_pnl is_profitable) items),
        length (List.filter (has_pnl is_losing) items)).
Proof.
  intros Hall. unfold portfolio_counts, count_pnl. cbn.
  by rewrite !filter_pnl_readable.
Qed.

(** C7, as the code has it: over a list of positions whose PnL percent
    can each be read as a number, the summary is rendered from the total,
    the number of positions with PnL percent above 0 and the number with
    PnL percent below 0; a position at exactly 0 is in neither count; and
    for the PnL percents 10, -5 and 0 the counts are 1 profitable and 1
    losing out of 3. *)
Theorem C7_profitable_and_losing_counts
    (w : World) (alerts : list alert) (tr : list event) (items : list pyval) :
  Forall (fun pos => is_ok (pnl_percent_of pos) = true) items →
  portfolio_counts (PyList items)
  = Ok (length items,
        length (List.filter (has_pnl is_profitable) items),
        length (List.filter (has_pnl is_losing) items))
  ∧ generate_portfolio_summary w (PyList items) alerts tr
    = (Ok (summary_text (clock w tr)
             (length items,
              length (List.filter (has_pnl is_profitable) items),
              length (List.filter (has_pnl is_losing) items))
             (foldl add_pnl 0%float items) (length alerts)
             (foldl (fun acc a => count_alert (alert_type a) acc) [] alerts)),
       tr)
  ∧ (∀ pos : pyval,
       pnl_percent_of pos = Ok 0%float ∨ pnl_percent_of pos = Ok (-0)%float →
       has_pnl is_profitable pos = false ∧ has_pnl is_losing pos = false)
  ∧ portfolio_counts
      (PyList [Examples.with_pnl_percent 10; Examples.with_pnl_percent (-5);
               Examples.with_pnl_percent 0])
    = Ok (3, 1, 1).
Proof.
  intros Hall. pose proof (portfolio_counts_readable items Hall) as Hcounts.
  split_and!.
  - done.
  - unfold generate_portfolio_summary, try_except, lift, datetime_now.
    unfold mbind at 1, IO_bind. by rewrite Hcounts.
  - intros pos [Hzero|Hzero]; unfold has_pnl; by rewrite Hzero.
  - reflexivity.
Qed.

End SummaryProperties.

(** With one PnL percent that cannot be read the counting raises: one of
    the two positions of [Examples.half_readable] has a PnL percent above
    0, yet the summary is the error text and shows no count. *)
Lemma C7_unreadable_percent_no_counts :
  length (List.filter (@has_pnl ascii_float_of_str is_profitable) Examples.half_readable) = 1
  ∧ @portfolio_counts ascii_float_of_str (PyList Examples.half_readable)
    = Raised ValueError
  ∧ @generate_portfolio_summary ascii_float_of_str Examples.live_world
      (PyList Examples.half_readable) [] []
    = (Ok [Lit "❌ Error generating portfolio summary"], []).
Proof. repeat split; vm_compute; reflexivity. Qed.

(** The counts for the PnL percents 10, -5 and 0. *)
Lemma C7_ten_minus_five_zero :
  @portfolio_counts ascii_float_of_str
    (PyList [Examples.with_pnl_percent 10; Examples.with_pnl_percent (-5);
             Examples.with_pnl_percent 0])
  = Ok (3, 1, 1).
Proof.
  apply (@C7_profitable_and_losing_counts ascii_float_of_str Examples.empty_world [] []
           [Examples.with_pnl_percent 10; Examples.with_pnl_percent (-5);
            Examples.with_pnl_percent 0]).
  repeat constructor.
Defined.

(** ** The position loader *)

(** The builtin [max] returns an item of the list with the largest key. *)
Lemma max_from_largest {A} (key : A → Z) (items : list A) (maxitem : A) :
  max_from key maxitem (key maxitem) items ∈ maxitem :: items
  ∧ ∀ x, x ∈ maxitem :: items →
      (key x ≤ key (max_from key maxitem (key maxitem) items))%Z.
Proof.
  revert maxitem. induction items as [|item rest IH]; intros maxitem; cbn.
  - split; [left|]. intros x ->%list_elem_of_singleton. lia.
  - destruct (Z.ltb_spec (key maxitem) (key item)) as [Hlt|Hge].
    + destruct (IH item) as [Hin Hmax]. split; [by right|].
      intros x [->|Hx]%elem_of_cons; [|by apply Hmax].
      specialize (Hmax item (list_elem_of_here _ _)). lia.
    + destruct (IH maxitem) as [Hin Hmax]. split.
      * apply elem_of_cons in Hin as [->|Hin]; [left|by do 2 right].
      * intros x [->|[->|Hx]%elem_of_cons]%elem_of_cons.
        -- apply Hmax. left.
        -- specialize (Hmax maxitem (list_elem_of_here _ _)). lia.
        -- apply Hmax. by right.
Qed.

Lemma py_max_largest {A} (key : A → Z) (items : list A) :
  items ≠ [] →
  ∃ item, py_max key items = Ok item
          ∧ item ∈ items
          ∧ ∀ x, x ∈ items → (key x ≤ key item)%Z.
Proof.
  destruct items as [|item rest]; [done|]. intros _. cbn.
  destruct (max_from_largest key rest item). eauto.
Qed.

Section LoaderProperties.
Context `{FloatOfStr}.

(** The loader, branch by branch. *)
Lemma load_structured (w : World) (tr : list event) (latest_file : string) :
  py_max (getctime w) (matching w "positions_" ".json") = Ok latest_file →
  load_latest_positions w tr
  = (Ok (loaded_or_empty (read_json w latest_file)),
     tr ++ [EvGlob "positions_*.json"; EvOpenRead latest_file]).
Proof.
  intros Hmax. unfold load_latest_positions, try_except, glob, open_json, emit, lift.
  unfold mbind, IO_bind, mret, IO_ret. cbn.
  destruct (matching w "positions_" ".json") as [|f fs] eqn:Hfiles; [done|].
  cbn [length Nat.eqb negb]. rewrite Hmax. rewrite <- app_assoc. cbn.
  unfold loaded_or_empty.
  destruct (read_json w latest_file) as [positions|]; [|done].
  by destruct (py_len positions).
Qed.

Lemma load_tabular (w : World) (tr : list event) (latest_file : string) :
  matching w "positions_" ".json" = [] →
  py_max (getctime w) (matching w "positions_" ".csv") = Ok latest_file →
  load_latest_positions w tr
  = (Ok (match read_csv w latest_file with
         | Ok rows => PyList (PyDict <$> (coerce_row <$> rows))
         | Raised _ => PyList []
         end),
     tr ++ [EvGlob "positions_*.json"; EvGlob "positions_*.csv"; EvOpenRead latest_file]).
Proof.
  intros Hjson Hmax.
  unfold load_latest_positions, try_except, glob, open_csv, emit, lift.
  unfold mbind, IO_bind, mret, IO_ret. cbn. rewrite Hjson. cbn.
  destruct (matching w "positions_" ".csv") as [|f fs] eqn:Hfiles; [done|].
  cbn [length Nat.eqb negb]. rewrite Hmax. rewrite <- !app_assoc. cbn.
  by destruct (read_csv w latest_file).
Qed.

Lemma load_nothing (w : World) (tr : list event) :
  matching w "positions_" ".json" = [] →
  matching w "positions_" ".csv" = [] →
  load_latest_positions w tr
  = (Ok (PyList []), tr ++ [EvGlob "positions_*.json"; EvGlob "positions_*.csv"]).
Proof.
  intros Hjson Hcsv.
  unfold load_latest_positions, try_except, glob, emit, lift.
  unfold mbind, IO_bind, mret, IO_ret. cbn. rewrite Hjson. cbn. rewrite Hcsv. cbn.
  by rewrite <- app_assoc.
Qed.

(** The loader never raises, and all it does is read the directory and
    at most one file. *)
Lemma load_reads_only (w : World) (tr : list event) :
  ∃ positions evs,
    load_latest_positions w tr = (Ok positions, tr ++ evs)
    ∧ Forall (fun e => is_local_read e = true) evs.
Proof.
  destruct (decide (matching w "positions_" ".json" = [])) as [Hjson|Hjson].
  - destruct (decide (matching w "positions_" ".csv" = [])) as [Hcsv|Hcsv].
    + rewrite (load_nothing w tr Hjson Hcsv). eexists _, _. split; [done|].
      by repeat constructor.
    + destruct (py_max_largest (getctime w) _ Hcsv) as (f & Hmax & _).
      rewrite (load_tabular w tr f Hjson Hmax). eexists _, _. split; [done|].
      by repeat constructor.
  - destruct (py_max_largest (getctime w) _ Hjson) as (f & Hmax & _).
    rewrite (load_structured w tr f Hmax). eexists _, _. split; [done|].
    by repeat constructor.
Qed.


End LoaderProperties.


Section CoercionProperties.
Context `{FloatOfStr}.

(** The loop over the numeric keys changes the value under each of them
    once, and nothing else. *)
Lemma coerce_key_same (pos : gmap string pyval) (key : string) :
  coerce_key pos key !! key = coerced <$> pos !! key.
Proof.
  unfold coerce_key, coerced.
  destruct (pos !! key) as [v|] eqn:Hv; cbn; [|done].
  destruct (py_truthy v); [|done].
  destruct (py_float v); by rewrite lookup_insert_eq.
Qed.

Lemma coerce_key_other (pos : gmap string pyval) (key key' : string) :
  key ≠ key' → coerce_key pos key' !! key = pos !! key.
Proof.
  intros Hne. unfold coerce_key.
  destruct (pos !! key') as [v|]; [|done].
  destruct (py_truthy v); [|done].
  destruct (py_float v); by rewrite lookup_insert_ne.
Qed.

Lemma coerce_keys_other (keys : list string) (pos : gmap string pyval) (key : string) :
  key ∉ keys → foldl coerce_key pos keys !! key = pos !! key.
Proof.
  revert pos. induction keys as [|key' keys IH]; intros pos Hnotin; [done|].
  apply not_elem_of_cons in Hnotin as [Hne Hnotin]. cbn.
  by rewrite IH, coerce_key_other.
Qed.

Lemma coerce_keys_member (keys : list string) (pos : gmap string pyval) (key : string) :
  NoDup keys → key ∈ keys → foldl coerce_key pos keys !! key = coerced <$> pos !! key.
Proof.
  intros Hnodup. revert pos.
  induction Hnodup as [|key' keys Hfresh Hnodup IH]; intros pos Hin.
  - by apply elem_of_nil in Hin.
  - cbn. apply elem_of_cons in Hin as [->|Hin].
    + by rewrite coerce_keys_other, coerce_key_same.
    + rewrite IH by done. rewrite coerce_key_other; [done|].
      intros ->. contradiction.
Qed.

Lemma coerce_row_lookup (pos : gmap string pyval) (key : string) :
  key ∈ numeric_keys → coerce_row pos !! key = coerced <$> pos !! key.
Proof.
  apply coerce_keys_member. by apply (bool_decide_unpack _).
Qed.

Lemma coerce_row_elsewhere (pos : gmap string pyval) (key : string) :
  key ∉ numeric_keys → coerce_row pos !! key = pos !! key.
Proof. apply coerce_keys_other. Qed.

(** C4, as the code has it: in a record of a tabular snapshot, a numeric
    field whose text is not empty and does not parse as a number is set
    to zero in the returned record, and nothing is raised; a field whose
    text is empty is left as the empty text. *)
Theorem C4_unparsable_text_becomes_zero
    (w : World) (tr : list event) (latest_file : string)
    (rows : list (gmap string pyval)) :
  matching w "positions_" ".json" = [] →
  py_max (getctime w) (matching w "positions_" ".csv") = Ok latest_file →
  read_csv w latest_file = Ok rows →
  (load_latest_positions w tr).1 = Ok (PyList (PyDict <$> (coerce_row <$> rows)))
  ∧ ∀ (row : gmap string pyval) (key s : string),
      row ∈ rows → key ∈ numeric_keys →
      row !! key = Some (PyStr s) → float_of_str s = None →
      coerce_row row !! key
      = Some (if String.eqb s "" then PyStr "" else PyFloat 0%float).
Proof.
  intros Hjson Hmax Hrows. split.
  - by rewrite (load_tabular w tr latest_file Hjson Hmax), Hrows.
  - intros row key s _ Hkey Hrow Hparse.
    rewrite (coerce_row_lookup row key Hkey), Hrow. cbn.
    unfold coerced. cbn. rewrite Hparse.
    destruct (String.eqb_spec s "") as [->|Hs]; done.
Qed.

End CoercionProperties.

(** The loader run on the tabular snapshot of [Examples.csv_world]: the
    text [abc] under ['PnL %'] becomes [0.0]. *)
Lemma C4_abc_becomes_zero :
  (@load_latest_positions ascii_float_of_str Examples.csv_world []).1
  = Ok (PyList (PyDict <$> (@coerce_row ascii_float_of_str <$> [Examples.csv_row])))
  ∧ @coerce_row ascii_float_of_str Examples.csv_row !! "PnL %" = Some (PyFloat 0%float).
Proof.
  destruct (@C4_unparsable_text_becomes_zero ascii_float_of_str Examples.csv_world []
              "positions_1.csv" [Examples.csv_row] eq_refl eq_refl eq_refl)
    as [Hloaded Hfields].
  split; [exact Hloaded|].
  apply (Hfields Examples.csv_row "PnL %" "abc").
  - left.
  - left.
  - reflexivity.
  - reflexivity.
Defined.

(** The same run leaves the empty text under ['PnL $'] as it is, though
    the empty text does not parse as a number. *)
Lemma C4_empty_text_left_unparsed :
  float_of_str (FloatOfStr := ascii_float_of_str) "" = None
  ∧ Examples.csv_row !! "PnL $" = Some (PyStr "")
  ∧ (@load_latest_positions ascii_float_of_str Examples.csv_world []).1
    = Ok (PyList
            [PyDict (<["Symbol" := PyStr "DOGE"]> (<["PnL %" := PyFloat 0]>
                    (<["PnL $" := PyStr ""]> (<["Entry Price" := PyFloat 0.25]> ∅))))]).
Proof. split_and!; vm_compute; reflexivity. Qed.

(** ** The notifier *)

(** The notifier, case by case. *)
Lemma send_without_token (w : World) (message : text) (channel_id : string)
    (tr : list event) :
  token_configured (DISCORD_TOKEN w) = false →
  send_discord_message w message channel_id tr = (Ok false, tr).
Proof. intros Htoken. unfold send_discord_message. by rewrite Htoken. Qed.

Lemma send_answered (w : World) (message : text) (channel_id : string)
    (tr : list event) (status_code : Z) :
  token_configured (DISCORD_TOKEN w) = true →
  answer w tr message channel_id = Response status_code →
  send_discord_message w message channel_id tr
  = (Ok (status_code =? 200)%Z, tr ++ [posted w message channel_id]).
Proof.
  unfold answer. intros Htoken Hanswer.
  unfold send_discord_message, try_except, requests_post. rewrite Htoken. cbn.
  unfold mbind, IO_bind. rewrite Hanswer.
  by destruct (status_code =? 200)%Z.
Qed.

Lemma send_failed (w : World) (message : text) (channel_id : string)
    (tr : list event) (e : exn) :
  token_configured (DISCORD_TOKEN w) = true →
  answer w tr message channel_id = NetRaised e →
  send_discord_message w message channel_id tr
  = (Ok false, tr ++ [posted w message channel_id]).
Proof.
  unfold answer. intros Htoken Hanswer.
  unfold send_discord_message, try_except, requests_post. rewrite Htoken. cbn.
  unfold mbind, IO_bind. by rewrite Hanswer.
Qed.

(** C9: [send_discord_message] always returns a boolean to its caller.
    Without a token it makes no request and returns false; on a response
    outside 2xx it returns false; when the request raises it returns
    false. *)
Theorem C9_notifier_never_raises (w : World) (message : text) (channel_id : string)
    (tr : list event) :
  (∃ sent tr', send_discord_message w message channel_id tr = (Ok sent, tr'))
  ∧ (token_configured (DISCORD_TOKEN w) = false →
       send_discord_message w message channel_id tr = (Ok false, tr))
  ∧ (token_configured (DISCORD_TOKEN w) = true →
       ∀ status_code,
         answer w tr message channel_id = Response status_code →
         is_2xx status_code = false →
         (send_discord_message w message channel_id tr).1 = Ok false)
  ∧ (token_configured (DISCORD_TOKEN w) = true →
       ∀ e,
         answer w tr message channel_id = NetRaised e →
         (send_discord_message w message channel_id tr).1 = Ok false).
Proof.
  split_and!.
  - destruct (token_configured (DISCORD_TOKEN w)) eqn:Htoken.
    + destruct (answer w tr message channel_id) as [status_code|e] eqn:Hanswer.
      * rewrite (send_answered _ _ _ _ _ Htoken Hanswer). eauto.
      * rewrite (send_failed _ _ _ _ _ Htoken Hanswer). eauto.
    + rewrite (send_without_token _ _ _ _ Htoken). eauto.
  - apply send_without_token.
  - intros Htoken status_code Hanswer Hstatus.
    rewrite (send_answered _ _ _ _ _ Htoken Hanswer). cbn.
    destruct (Z.eqb_spec status_code 200) as [->|]; [discriminate|done].
  - intros Htoken e Hanswer. by rewrite (send_failed _ _ _ _ _ Htoken Hanswer).
Qed.

(** C10: with a token configured and a response received,
    [send_discord_message] returns true exactly when the status code is
    200; any other status code, 201 and 204 among them, gives false. *)
Theorem C10_only_200_is_success (w : World) (message : text) (channel_id : string)
    (tr : list event) (status_code : Z) :
  token_configured (DISCORD_TOKEN w) = true →
  answer w tr message channel_id = Response status_code →
  ((send_discord_message w message channel_id tr).1 = Ok true ↔ status_code = 200%Z)
  ∧ ((send_discord_message w message channel_id tr).1 = Ok false ↔ status_code ≠ 200%Z).
Proof.
  intros Htoken Hanswer. rewrite (send_answered _ _ _ _ _ Htoken Hanswer). cbn.
  destruct (Z.eqb_spec status_code 200) as [->|Hne]; split; split; done.
Qed.

(** A configured notifier answered with 503, and with 204. *)
Lemma C9_service_unavailable :
  (send_discord_message (Examples.answering_world 503) [Lit "hello"] "42" []).1 = Ok false.
Proof.
  destruct (C9_notifier_never_raises (Examples.answering_world 503) [Lit "hello"] "42" [])
    as (_ & _ & Hrefused & _).
  apply (Hrefused eq_refl 503%Z); reflexivity.
Defined.

Lemma C10_no_content_is_failure :
  (send_discord_message (Examples.answering_world 204) [Lit "hello"] "42" []).1 = Ok false.
Proof.
  apply (C10_only_200_is_success (Examples.answering_world 204) [Lit "hello"] "42" [] 204);
    [reflexivity | reflexivity | discriminate].
Defined.

(** ** The run *)

Section RunProperties.
Context `{FloatOfStr}.

(** C5: when the loader returns an empty sequence, the run returns false
    and does nothing beyond what the loader did, which is reading the
    local directory and at most one local file: no request is posted and
    no status file is written. *)
Theorem C5_empty_snapshot_fails_quietly
    (w : World) (tr tr' : list event) (positions : pyval) :
  load_latest_positions w tr = (Ok positions, tr') →
  py_truthy positions = false →
  run_automated_alerts w tr = (Ok false, tr')
  ∧ ∃ evs,
      tr' = tr ++ evs
      ∧ Forall (fun e => is_local_read e = true
                         ∧ is_network e = false ∧ is_write e = false) evs.
Proof.
  intros Hload Hempty. split.
  - unfold run_automated_alerts, try_except, datetime_now.
    unfold mbind at 1, IO_bind at 1. unfold mbind at 1, IO_bind at 1.
    rewrite Hload, Hempty. reflexivity.
  - destruct (load_reads_only w tr) as (positions' & evs & Hload' & Hreads).
    rewrite Hload in Hload'. injection Hload' as _ ->.
    exists evs. split; [done|].
    eapply Forall_impl; [exact Hreads|]. by intros [] ?.
Qed.

End RunProperties.

(** The run in an empty working directory. *)
Lemma C5_empty_directory :
  @run_automated_alerts ascii_float_of_str Examples.empty_world []
  = (Ok false, [EvGlob "positions_*.json"; EvGlob "positions_*.csv"])
  ∧ ∃ evs,
      [EvGlob "positions_*.json"; EvGlob "positions_*.csv"] = [] ++ evs
      ∧ Forall (fun e => is_local_read e = true
                         ∧ is_network e = false ∧ is_write e = false) evs.
Proof.
  apply (@C5_empty_snapshot_fails_quietly ascii_float_of_str Examples.empty_world []
           [EvGlob "positions_*.json"; EvGlob "positions_*.csv"] (PyList []));
    reflexivity.
Defined.

(** * Further properties *)

(** ** Order of binary64 numbers against the thresholds *)

(** Comparisons of primitive floats are those of their specification
    ([ltb_spec]); on the specification they are read off [SFcompare]. *)
Lemma SFltb_below_weaken (sx : spec_float) (m1 m2 : positive) (e : Z) :
  (m2 ≤ m1)%positive →
  SFltb sx (S754_finite true m1 e) = true →
  SFltb sx (S754_finite true m2 e) = true.
Proof.
  intros Hm. unfold SFltb, SFcompare.
  destruct sx as [s|s| |s m ex]; try destruct s; try congruence.
  destruct (Z.compare ex e); try congruence.
  change (Pos.compare_cont Eq m m1) with (Pos.compare m m1).
  change (Pos.compare_cont Eq m m2) with (Pos.compare m m2).
  destruct (Pos.compare_spec m m1); cbn; try congruence.
  intros _. destruct (Pos.compare_spec m m2); cbn; [lia|lia|done].
Qed.

Lemma SFltb_above_weaken (sx : spec_float) (m1 m2 : positive) (e1 e2 : Z) :
  (e2 < e1)%Z →
  SFltb (S754_finite false m1 e1) sx = true →
  SFltb (S754_finite false m2 e2) sx = true.
Proof.
  intros He. unfold SFltb, SFcompare.
  destruct sx as [s|s| |s m ex]; try destruct s; try congruence.
  destruct (Z.compare_spec e1 ex); try congruence.
  - subst ex. intros _. by rewrite (proj2 (Z.compare_lt_iff e2 e1) He).
  - intros _. by rewrite (proj2 (Z.compare_lt_iff e2 ex)) by lia.
Qed.

Lemma SFltb_negative_not_above (sx : spec_float) (m1 m2 : positive) (e1 e2 : Z) :
  SFltb sx (S754_finite true m1 e1) = true →
  SFltb (S754_finite false m2 e2) sx = false.
Proof.
  unfold SFltb, SFcompare.
  destruct sx as [s|s| |s m ex]; try destruct s; congruence.
Qed.

Lemma SFltb_zero_exclusive (sx : spec_float) (s0 : bool) :
  SFltb (S754_zero s0) sx = true → SFltb sx (S754_zero s0) = false.
Proof.
  unfold SFltb, SFcompare.
  destruct sx as [s|s| |s m ex]; try destruct s; congruence.
Qed.

Lemma spec_of_thresholds :
  Prim2SF (-15)%float = S754_finite true 8444249301319680 (-49)
  ∧ Prim2SF (-10)%float = S754_finite true 5629499534213120 (-49)
  ∧ Prim2SF 50%float = S754_finite false 7036874417766400 (-47)
  ∧ Prim2SF 80%float = S754_finite false 5629499534213120 (-46)
  ∧ Prim2SF 0%float = S754_zero false.
Proof. repeat split; vm_compute; reflexivity. Qed.

(** Below -15 is below -10, above 80 is above 50, below -10 is not above
    50, and above 0 is not below 0. *)
Lemma below_15_below_10 (x : float) :
  (x <? -15)%float = true → (x <? -10)%float = true.
Proof.
  destruct spec_of_thresholds as (H15 & H10 & _).
  rewrite !ltb_spec, H15, H10. apply SFltb_below_weaken.
  apply Pos.leb_le. reflexivity.
Qed.

Lemma above_80_above_50 (x : float) :
  (80 <? x)%float = true → (50 <? x)%float = true.
Proof.
  destruct spec_of_thresholds as (_ & _ & H50 & H80 & _).
  rewrite !ltb_spec, H50, H80. by apply SFltb_above_weaken.
Qed.

Lemma below_10_not_above_50 (x : float) :
  (x <? -10)%float = true → (50 <? x)%float = false.
Proof.
  destruct spec_of_thresholds as (_ & H10 & H50 & _).
  rewrite !ltb_spec, H50, H10. apply SFltb_negative_not_above.
Qed.

Lemma above_0_not_below_0 (x : float) :
  (0 <? x)%float = true → (x <? 0)%float = false.
Proof.
  destruct spec_of_thresholds as (_ & _ & _ & _ & H0).
  rewrite !ltb_spec, H0. apply SFltb_zero_exclusive.
Qed.

(** ** The rule evaluator, further *)

Section EvaluatorFurther.
Context `{FloatOfStr}.

(** A property of the list of alerts that holds of the empty list and is
    kept by what each position appends holds of the evaluator's result. *)
Lemma analyze_loop_keeps (P : list alert → Prop) :
  (∀ acc pos new, P acc → analyze_position [] pos = Ok new → P (acc ++ new)) →
  ∀ items alerts alerts',
    P alerts → analyze_loop alerts items = Ok alerts' → P alerts'.
Proof.
  intros Hstep. induction items as [|pos items IH]; intros alerts alerts' Halerts; cbn.
  - by intros [= <-].
  - rewrite analyze_position_appends.
    destruct (analyze_position [] pos) as [new|e] eqn:Hnew; cbn; [|done].
    apply IH. by eapply Hstep.
Qed.

Lemma analyze_positions_keeps (P : list alert → Prop) :
  P [] →
  (∀ acc pos new, P acc → analyze_position [] pos = Ok new → P (acc ++ new)) →
  ∀ positions, P (analyze_positions positions).
Proof.
  intros Hnil Hstep positions. unfold analyze_positions.
  destruct (py_iter positions) as [items|e]; cbn; [|done].
  destruct (analyze_loop [] items) as [alerts|e] eqn:Hloop; [|done].
  by eapply (analyze_loop_keeps P Hstep).
Qed.

Lemma count_kind_app (kind : alert → bool) (alerts1 alerts2 : list alert) :
  count_kind kind (alerts1 ++ alerts2) = count_kind kind alerts1 + count_kind kind alerts2.
Proof. unfold count_kind. by rewrite List.filter_app, length_app. Qed.

(** What one position appends. *)
Lemma analyze_position_well_formed (pos : pyval) (new : list alert) :
  analyze_position [] pos = Ok new → forallb well_formed new = true.
Proof.
  unfold analyze_position.
  destruct pos; try discriminate. cbn.
  destruct (coerce_fields _ _ _) as [[[pnl_percent pnl_dollar] margin]|e]; cbn.
  - split_rules; intros [= <-]; reflexivity.
  - by intros [= <-].
Qed.

Lemma analyze_position_pairs (pos : pyval) (new : list alert) :
  analyze_position [] pos = Ok new →
  count_kind (has_type "oversold") new ≤ count_kind (has_type "losing_trade") new
  ∧ count_kind (has_type "overbought") new ≤ count_kind (has_type "high_profit") new
  ∧ count_kind (has_type "high_profit") new + count_kind (has_type "oversold") new ≤ 1
  ∧ count_kind (has_type "losing_trade") new + count_kind (has_type "overbought") new ≤ 1.
Proof.
  unfold analyze_position.
  destruct pos; try discriminate. cbn.
  destruct (coerce_fields _ _ _) as [[[pnl_percent pnl_dollar] margin]|e]; cbn.
  - pose proof (below_15_below_10 pnl_percent) as H15.
    pose proof (above_80_above_50 pnl_percent) as H80.
    pose proof (below_10_not_above_50 pnl_percent) as H10.
    destruct (50 <? pnl_percent)%float, (pnl_percent <? -10)%float,
      (pnl_percent <? -15)%float, (80 <? pnl_percent)%float;
      try (specialize (H15 eq_refl); discriminate);
      try (specialize (H80 eq_refl); discriminate);
      try (specialize (H10 eq_refl); discriminate);
      split_rules; intros [= <-]; cbn; lia.
  - intros [= <-]. cbn. lia.
Qed.

(** A record never makes the loop body raise. *)
Lemma analyze_position_record (alerts : list alert) (d : gmap string pyval) :
  ∃ new, analyze_position [] (PyDict d) = Ok new
         ∧ analyze_position alerts (PyDict d) = Ok (alerts ++ new).
Proof.
  rewrite (analyze_position_appends alerts).
  destruct (analyze_position [] (PyDict d)) as [new|e] eqn:Hnew; [by exists new|].
  exfalso. revert Hnew. unfold analyze_position. cbn.
  destruct (coerce_fields _ _ _) as [[[pnl_percent pnl_dollar] margin]|e']; cbn;
    split_rules; discriminate.
Qed.

Lemma analyze_loop_records (items : list pyval) :
  Forall (fun pos => is_record pos = true) items →
  ∀ alerts, analyze_loop alerts items = Ok (alerts ++ analyze_positions (PyList items)).
Proof.
  induction 1 as [|pos items Hpos _ IH]; intros alerts.
  - cbn. by rewrite app_nil_r.
  - destruct pos as [| | | | | |d]; try discriminate.
    rewrite analyze_positions_list, !analyze_loop_cons.
    destruct (analyze_position_record alerts d) as (new & Hnew & ->).
    rewrite Hnew. cbn. rewrite !IH. cbn. by rewrite app_assoc.
Qed.

Lemma analyze_loop_not_record (items : list pyval) :
  Exists (fun pos => is_record pos = false) items →
  ∀ alerts, is_ok (analyze_loop alerts items) = false.
Proof.
  induction 1 as [pos items Hpos|pos items _ IH]; intros alerts; rewrite analyze_loop_cons.
  - by destruct pos.
  - destruct (analyze_position alerts pos); cbn; [apply IH|done].
Qed.

End EvaluatorFurther.

Section EvaluatorExtras.
Context `{FloatOfStr}.

(** X1: over position records the evaluator works position by position:
    the alerts of a sequence are the alerts of its first part followed by
    the alerts of the rest. *)
Theorem X1_evaluator_concatenates (items1 items2 : list pyval) :
  Forall (fun pos => is_record pos = true) items1 →
  Forall (fun pos => is_record pos = true) items2 →
  analyze_positions (PyList (items1 ++ items2))
  = analyze_positions (PyList items1) ++ analyze_positions (PyList items2).
Proof.
  intros Hrec1 Hrec2. rewrite (analyze_positions_list (items1 ++ items2)).
  rewrite analyze_loop_app, (analyze_loop_records items1 Hrec1). cbn.
  by rewrite (analyze_loop_records items2 Hrec2).
Qed.

(** X2: one item that is not a record voids the evaluation: the result
    is empty, whatever alerts the other positions would have given. *)
Theorem X2_non_record_discards_all (items : list pyval) :
  Exists (fun pos => is_record pos = false) items →
  analyze_positions (PyList items) = [].
Proof.
  intros Hbad. rewrite analyze_positions_list.
  pose proof (analyze_loop_not_record items Hbad []) as Hraised.
  by destruct (analyze_loop [] items).
Qed.

(** X3: every alert the evaluator yields is one of the five kinds of the
    rule table, goes to the channel of its kind, carries the oscillator
    value of its kind, has the ['pnl'] and ['margin'] entries of its
    kind, and has an emoji of its own in the summary. *)
Theorem X3_alerts_well_formed (positions : pyval) :
  forallb well_formed (analyze_positions positions) = true.
Proof.
  apply (analyze_positions_keeps (fun alerts => forallb well_formed alerts = true));
    [done|].
  intros acc pos new Hacc Hnew%analyze_position_well_formed.
  by rewrite forallb_app, Hacc, Hnew.
Qed.

(** X4: an oscillator alert never comes alone.  There are at most as
    many [oversold] alerts as [losing_trade] alerts and at most as many
    [overbought] alerts as [high_profit] alerts, for every sequence; and
    one position never gives [high_profit] with [oversold], nor
    [losing_trade] with [overbought]. *)
Theorem X4_oscillator_follows_profit_loss (positions pos : pyval) :
  count_kind (has_type "oversold") (analyze_positions positions)
  ≤ count_kind (has_type "losing_trade") (analyze_positions positions)
  ∧ count_kind (has_type "overbought") (analyze_positions positions)
    ≤ count_kind (has_type "high_profit") (analyze_positions positions)
  ∧ count_kind (has_type "high_profit") (analyze_positions (PyList [pos]))
    + count_kind (has_type "oversold") (analyze_positions (PyList [pos])) ≤ 1
  ∧ count_kind (has_type "losing_trade") (analyze_positions (PyList [pos]))
    + count_kind (has_type "overbought") (analyze_positions (PyList [pos])) ≤ 1.
Proof.
  split_and!.
  - apply (analyze_positions_keeps (fun alerts =>
      count_kind (has_type "oversold") alerts
      ≤ count_kind (has_type "losing_trade") alerts)); [done|].
    intros acc p new Hacc (Hnew & _)%analyze_position_pairs.
    rewrite !count_kind_app. lia.
  - apply (analyze_positions_keeps (fun alerts =>
      count_kind (has_type "overbought") alerts
      ≤ count_kind (has_type "high_profit") alerts)); [done|].
    intros acc p new Hacc (_ & Hnew & _)%analyze_position_pairs.
    rewrite !count_kind_app. lia.
  - rewrite analyze_positions_list, analyze_loop_cons.
    destruct (analyze_position [] pos) as [new|e] eqn:Hnew; cbn; [|lia].
    by destruct (analyze_position_pairs pos new Hnew) as (_ & _ & ? & _).
  - rewrite analyze_positions_list, analyze_loop_cons.
    destruct (analyze_position [] pos) as [new|e] eqn:Hnew; cbn; [|lia].
    by destruct (analyze_position_pairs pos new Hnew) as (_ & _ & _ & ?).
Qed.

(** X5: routing loses no alert and doubles none: every alert is in
    exactly one of the two lists the run builds, the one for the
    portfolio channel or the one for the alpha channel. *)
Theorem X5_every_alert_routed_once (positions : pyval) :
  length (for_channel "portfolio" (analyze_positions positions))
  + length (for_channel "alpha" (analyze_positions positions))
  = length (analyze_positions positions)
  ∧ Forall (fun a => alert_channel a = "portfolio" ∨ alert_channel a = "alpha")
      (analyze_positions positions).
Proof.
  assert (Hall : Forall (fun a => alert_channel a = "portfolio" ∨ alert_channel a = "alpha")
                   (analyze_positions positions)).
  { apply analyze_positions_keeps; [done|].
    intros acc p new Hacc Hnew%analyze_position_well_formed.
    apply Forall_app. split; [done|].
    apply Forall_forall. intros a Ha.
    rewrite forallb_forall in Hnew. specialize (Hnew a (proj1 (list_elem_of_In _ _) Ha)).
    unfold well_formed in Hnew. rewrite !andb_true_iff in Hnew.
    destruct Hnew as (((((_ & Hchannel%String.eqb_eq) & _) & _) & _) & _).
    rewrite Hchannel. unfold expected_channel.
    destruct (_ || _); [by right|by left]. }
  split; [|done]. unfold for_channel.
  induction Hall as [|a alerts [Ha|Ha] _ IH]; [done|..]; cbn; rewrite Ha; cbn; lia.
Qed.

(** X6: the alerts of a position carry its symbol and platform, or
    ['Unknown'] where the key is absent, and the numbers they carry are
    the position's PnL percent and margin as the evaluator read them. *)
Theorem X6_alerts_carry_position_fields (d : gmap string pyval) :
  Forall (fun a =>
            alert_symbol a = default (PyStr "Unknown") (d !! "Symbol")
            ∧ alert_platform a = default (PyStr "Unknown") (d !! "Platform")
            ∧ (∀ x, alert_pnl a = Some x → field_float d "PnL %" = Ok x)
            ∧ (∀ x, alert_margin a = Some x → field_float d "Margin Size ($)" = Ok x))
    (analyze_positions (PyList [PyDict d])).
Proof.
  unfold analyze_positions, analyze_position, field_float. cbn.
  unfold coerce_fields.
  destruct (py_float (default (PyInt 0) (d !! "PnL %"))) as [pnl_percent|]; cbn; [|done].
  destruct (py_float (default (PyInt 0) (d !! "PnL $"))) as [pnl_dollar|]; cbn; [|done].
  destruct (py_float (default (PyInt 0) (d !! "Margin Size ($)"))) as [margin|]; cbn;
    [|done].
  split_rules; repeat constructor; cbn; congruence.
Qed.

End EvaluatorExtras.

Lemma X1_two_records :
  @analyze_positions ascii_float_of_str
    (PyList ([PyDict Examples.losing_position] ++ [PyDict Examples.winning_position]))
  = @analyze_positions ascii_float_of_str (PyList [PyDict Examples.losing_position])
    ++ @analyze_positions ascii_float_of_str (PyList [PyDict Examples.winning_position]).
Proof.
  apply (@X1_evaluator_concatenates ascii_float_of_str); repeat constructor.
Defined.

Lemma X2_record_then_number :
  @analyze_positions ascii_float_of_str (PyList [PyDict Examples.losing_position; PyInt 5])
  = [].
Proof.
  apply (@X2_non_record_discards_all ascii_float_of_str).
  right. left. reflexivity.
Defined.

(** ** The position loader, further *)

Section LoaderFurther.
Context `{FloatOfStr}.

Lemma coerced_truthy (v : pyval) :
  py_truthy v = true → coerced v = PyFloat (number_or_zero v).
Proof. unfold coerced, number_or_zero. intros ->. by destruct (py_float v). Qed.

Lemma coerced_falsy (v : pyval) : py_truthy v = false → coerced v = v.
Proof. unfold coerced. by intros ->. Qed.

Lemma coerced_float (x : float) : coerced (PyFloat x) = PyFloat x.
Proof. unfold coerced. cbn. by destruct (negb _). Qed.

Lemma coerced_idempotent (v : pyval) : coerced (coerced v) = coerced v.
Proof.
  destruct (py_truthy v) eqn:Htruthy.
  - by rewrite (coerced_truthy v Htruthy), coerced_float.
  - by rewrite !(coerced_falsy v Htruthy).
Qed.

(** A numeric column with a non-empty value, after the conversion. *)
Lemma loaded_cell (row : gmap string pyval) (key : string) (v : pyval) :
  key ∈ numeric_keys →
  row !! key = Some v →
  py_truthy v = true →
  coerce_row row !! key = Some (PyFloat (number_or_zero v)).
Proof.
  intros Hkey Hv Htruthy.
  by rewrite (coerce_row_lookup _ key Hkey), Hv; cbn; rewrite coerced_truthy.
Qed.

(** X7: the loader's conversion settles: converting a converted record
    again changes nothing. *)
Theorem X7_coerce_row_idempotent (row : gmap string pyval) :
  coerce_row (coerce_row row) = coerce_row row.
Proof.
  apply map_eq. intros key.
  destruct (decide (key ∈ numeric_keys)) as [Hkey|Hkey].
  - rewrite !(coerce_row_lookup _ key Hkey).
    destruct (row !! key) as [v|]; cbn; [|done]. by rewrite coerced_idempotent.
  - by rewrite !(coerce_row_elsewhere _ key Hkey).
Qed.

(** X8: the conversion keeps the record's keys, leaves every column
    other than the five numeric ones as it was, and leaves a numeric
    column as it was when its value is empty (the empty text, [None],
    zero). *)
Theorem X8_coerce_row_frame (row : gmap string pyval) :
  dom (coerce_row row) = dom row
  ∧ (∀ key, key ∉ numeric_keys → coerce_row row !! key = row !! key)
  ∧ (∀ key v, row !! key = Some v → py_truthy v = false →
       coerce_row row !! key = Some v).
Proof.
  split_and!.
  - apply set_eq. intros key. rewrite !elem_of_dom.
    destruct (decide (key ∈ numeric_keys)) as [Hkey|Hkey].
    + rewrite (coerce_row_lookup _ key Hkey). apply fmap_is_Some.
    + by rewrite (coerce_row_elsewhere _ key Hkey).
  - apply coerce_row_elsewhere.
  - intros key v Hv Hfalsy.
    destruct (decide (key ∈ numeric_keys)) as [Hkey|Hkey].
    + by rewrite (coerce_row_lookup _ key Hkey), Hv; cbn; rewrite coerced_falsy.
    + by rewrite (coerce_row_elsewhere _ key Hkey).
Qed.

(** X9: after the conversion a numeric column with a non-empty value
    holds a float, its number or zero when it has none, and the
    evaluator reads it back as that number. *)
Theorem X9_loaded_cell_is_number (row : gmap string pyval) (key : string) (v : pyval) :
  key ∈ numeric_keys →
  row !! key = Some v →
  py_truthy v = true →
  coerce_row row !! key = Some (PyFloat (number_or_zero v))
  ∧ field_float (coerce_row row) key = Ok (number_or_zero v).
Proof.
  intros Hkey Hv Htruthy. pose proof (loaded_cell row key v Hkey Hv Htruthy) as Hcell.
  split; [done|]. unfold field_float. by rewrite Hcell.
Qed.

Lemma field_float_loaded (row : gmap string pyval) (key : string) :
  key ∈ numeric_keys →
  (∀ v, row !! key = Some v → py_truthy v = true) →
  field_float (coerce_row row) key = Ok (cell_number row key).
Proof.
  intros Hkey Htruthy. unfold cell_number. destruct (row !! key) as [v|] eqn:Hv.
  - unfold field_float. by rewrite (loaded_cell row key v Hkey Hv (Htruthy v eq_refl)).
  - unfold field_float. by rewrite (coerce_row_lookup _ key Hkey), Hv.
Qed.

(** X10: a record of a tabular snapshot whose PnL percent, PnL dollar
    amount and margin cells are not empty is never skipped by the
    evaluator once the loader has converted it: the rules are applied to
    the numbers of the cells, a cell that does not parse counting as
    zero. *)
Theorem X10_loaded_row_is_evaluated (row : gmap string pyval) :
  (∀ key v, key ∈ ["PnL %"; "PnL $"; "Margin Size ($)"] →
            row !! key = Some v → py_truthy v = true) →
  kind_and_channel <$> analyze_positions (PyList [PyDict (coerce_row row)])
  = (if (50 <? cell_number row "PnL %")%float then [("high_profit", "portfolio")]
     else if (cell_number row "PnL %" <? -10)%float then [("losing_trade", "portfolio")]
     else [])
    ++ (if (cell_number row "PnL %" <? -15)%float then [("oversold", "alpha")]
        else if (80 <? cell_number row "PnL %")%float then [("overbought", "alpha")]
        else [])
    ++ (if py_eq_str (default (PyStr "❌") (row !! "SL Set?")) "❌"
           && (100 <? cell_number row "Margin Size ($)")%float
        then [("no_stop_loss", "portfolio")] else []).
Proof.
  intros Hcells.
  assert (∀ key, key ∈ ["PnL %"; "PnL $"; "Margin Size ($)"] →
                 field_float (coerce_row row) key = Ok (cell_number row key)) as Hread.
  { intros key Hkey. apply field_float_loaded.
    - revert Hkey. unfold numeric_keys. rewrite !elem_of_cons. tauto.
    - intros v. by apply Hcells. }
  rewrite (analyze_single (coerce_row row) _ _ _
             (Hread "PnL %" ltac:(by left))
             (Hread "PnL $" ltac:(by right; left))
             (Hread "Margin Size ($)" ltac:(by right; right; left))).
  rewrite (coerce_row_elsewhere row "SL Set?"); [done|].
  by apply (bool_decide_unpack _).
Qed.


(** X12: the loader never raises; what it returns always has a length
    (it can be iterated); it opens at most one file, and when it opens
    none it returns the empty list. *)
Theorem X12_loader_returns_sequence (w : World) (tr : list event) :
  ∃ positions evs,
    load_latest_positions w tr = (Ok positions, tr ++ evs)
    ∧ is_ok (py_len positions) = true
    ∧ length (List.filter is_open evs) ≤ 1
    ∧ (length (List.filter is_open evs) = 0 → positions = PyList []).
Proof.
  destruct (decide (matching w "positions_" ".json" = [])) as [Hjson|Hjson].
  - destruct (decide (matching w "positions_" ".csv" = [])) as [Hcsv|Hcsv].
    + rewrite (load_nothing w tr Hjson Hcsv). eexists _, _. split; [done|]. cbn.
      split_and!; [done|lia|done].
    + destruct (py_max_largest (getctime w) _ Hcsv) as (f & Hmax & _).
      rewrite (load_tabular w tr f Hjson Hmax). eexists _, _. split; [done|]. cbn.
      split_and!; [by destruct (read_csv w f)|lia|done].
  - destruct (py_max_largest (getctime w) _ Hjson) as (f & Hmax & _).
    rewrite (load_structured w tr f Hmax). eexists _, _. split; [done|]. cbn.
    split_and!; [|lia|done].
    unfold loaded_or_empty. destruct (read_json w f) as [positions|]; [|done].
    by destruct (is_ok (py_len positions)) eqn:Hlen.
Qed.

End LoaderFurther.

Lemma X9_unparsable_text_reads_as_zero :
  @coerce_row ascii_float_of_str MoreExamples.text_row !! "PnL %" = Some (PyFloat 0)
  ∧ @field_float ascii_float_of_str
      (@coerce_row ascii_float_of_str MoreExamples.text_row) "PnL %"
    = Ok 0%float.
Proof.
  apply (@X9_loaded_cell_is_number ascii_float_of_str MoreExamples.text_row
           "PnL %" (PyStr "N/A")).
  - left.
  - reflexivity.
  - reflexivity.
Defined.

(** The same row is skipped when it is evaluated as it stands, and gets
    a stop-loss warning once converted. *)
Lemma X10_text_row_evaluated :
  kind_and_channel
    <$> @analyze_positions ascii_float_of_str
          (PyList [PyDict (@coerce_row ascii_float_of_str MoreExamples.text_row)])
  = [("no_stop_loss", "portfolio")].
Proof.
  rewrite (@X10_loaded_row_is_evaluated ascii_float_of_str MoreExamples.text_row).
  - reflexivity.
  - intros key v Hkey Hv.
    repeat (apply elem_of_cons in Hkey as [->|Hkey];
            [vm_compute in Hv; by injection Hv as <-|]).
    by apply elem_of_nil in Hkey.
Defined.


(** ** The notifier, further *)

(** X13: [send_discord_message] makes no request without a token and
    exactly one with a token, whatever the answer is (a failure is not
    retried); it returns true only when that one request was answered
    with status 200. *)
Theorem X13_send_at_most_once (w : World) (message : text) (channel_id : string)
    (tr : list event) :
  ∃ sent evs,
    send_discord_message w message channel_id tr = (Ok sent, tr ++ evs)
    ∧ evs = (if token_configured (DISCORD_TOKEN w)
             then [posted w message channel_id] else [])
    ∧ (sent = true →
       token_configured (DISCORD_TOKEN w) = true
       ∧ answer w tr message channel_id = Response 200).
Proof.
  destruct (token_configured (DISCORD_TOKEN w)) eqn:Htoken.
  - destruct (answer w tr message channel_id) as [status_code|e] eqn:Hanswer.
    + rewrite (send_answered _ _ _ _ _ Htoken Hanswer). eexists _, _.
      split_and!; [done..|]. by intros ->%Z.eqb_eq.
    + rewrite (send_failed _ _ _ _ _ Htoken Hanswer). by eexists _, _.
  - rewrite (send_without_token _ _ _ _ Htoken). exists false, [].
    by rewrite app_nil_r.
Qed.

(** ** The summary formatter, further *)

Lemma histogram_count_count_alert (kind alert_type : string)
    (alert_counts : list (string * nat)) :
  histogram_count kind (count_alert alert_type alert_counts)
  = histogram_count kind alert_counts + (if String.eqb alert_type kind then 1 else 0).
Proof.
  induction alert_counts as [|[k n] rest IH]; cbn.
  - by destruct (String.eqb alert_type kind).
  - destruct (String.eqb_spec k alert_type) as [->|Hne]; cbn.
    + destruct (String.eqb alert_type kind); lia.
    + destruct (String.eqb_spec k kind) as [->|Hk]; [|done].
      destruct (String.eqb_spec alert_type kind) as [->|_]; [done|lia].
Qed.

Lemma count_alert_keys (alert_type : string) (alert_counts : list (string * nat)) :
  (count_alert alert_type alert_counts).*1
  = if bool_decide (alert_type ∈ alert_counts.*1) then alert_counts.*1
    else alert_counts.*1 ++ [alert_type].
Proof.
  induction alert_counts as [|[k n] rest IH]; cbn; [done|].
  destruct (String.eqb_spec k alert_type) as [->|Hne]; cbn.
  - rewrite bool_decide_eq_true_2; [done|left].
  - rewrite IH. destruct (bool_decide (alert_type ∈ rest.*1)) eqn:Hin.
    + apply bool_decide_eq_true in Hin. rewrite bool_decide_eq_true_2; [done|by right].
    + apply bool_decide_eq_false in Hin. rewrite bool_decide_eq_false_2; [done|].
      intros [->|?]%elem_of_cons; done.
Qed.

Lemma count_alert_sum (alert_type : string) (alert_counts : list (string * nat)) :
  sum_list (count_alert alert_type alert_counts).*2 = S (sum_list alert_counts.*2).
Proof.
  induction alert_counts as [|[k n] rest IH]; cbn; [done|].
  destruct (String.eqb k alert_type); cbn; [lia|]. rewrite IH. lia.
Qed.

Lemma count_alert_positive (alert_type : string) (alert_counts : list (string * nat)) :
  Forall (fun kn => 0 < kn.2) alert_counts →
  Forall (fun kn => 0 < kn.2) (count_alert alert_type alert_counts).
Proof.
  induction 1 as [|[k n] rest Hn Hrest IH]; cbn.
  - repeat constructor.
  - destruct (String.eqb k alert_type); constructor; cbn in *; try done; lia.
Qed.

(** The dictionary after the loop that started from [alert_counts]. *)
Lemma histogram_loop (alerts : list alert) (alert_counts : list (string * nat)) :
  let counted := foldl (fun acc a => count_alert (alert_type a) acc) alert_counts alerts in
  (NoDup alert_counts.*1 → NoDup counted.*1)
  ∧ (∀ kind, histogram_count kind counted
             = histogram_count kind alert_counts + count_kind (has_type kind) alerts)
  ∧ (Forall (fun kn => 0 < kn.2) alert_counts → Forall (fun kn => 0 < kn.2) counted)
  ∧ sum_list counted.*2 = sum_list alert_counts.*2 + length alerts.
Proof.
  revert alert_counts. induction alerts as [|a alerts IH]; intros alert_counts; cbn.
  - split_and!; [done| |done|lia]. intros kind. unfold count_kind. cbn. lia.
  - destruct (IH (count_alert (alert_type a) alert_counts)) as (Hkeys & Hcount & Hpos & Hsum).
    split_and!.
    + intros Hnodup. apply Hkeys. rewrite count_alert_keys.
      destruct (bool_decide (alert_type a ∈ alert_counts.*1)) eqn:Hin; [done|].
      apply bool_decide_eq_false in Hin. apply NoDup_app. split_and!; [done| |].
      * intros k Hk ->%list_elem_of_singleton. done.
      * apply NoDup_singleton.
    + intros kind. rewrite Hcount, histogram_count_count_alert.
      unfold count_kind, has_type. cbn. destruct (String.eqb (alert_type a) kind); cbn; lia.
    + intros Hall. by apply Hpos, count_alert_positive.
    + rewrite Hsum, count_alert_sum. lia.
Qed.

(** X14: the dictionary of alert counts has one entry per kind of alert
    present, each with the number of alerts of that kind (at least one),
    the lookup of an absent kind gives 0, and the counts add up to the
    number of alerts. *)
Theorem X14_histogram_counts_alerts (alerts : list alert) :
  NoDup (alert_histogram alerts).*1
  ∧ (∀ kind, histogram_count kind (alert_histogram alerts)
             = count_kind (has_type kind) alerts)
  ∧ Forall (fun kn => 0 < kn.2) (alert_histogram alerts)
  ∧ sum_list (alert_histogram alerts).*2 = length alerts.
Proof.
  destruct (histogram_loop alerts []) as (Hkeys & Hcount & Hpos & Hsum).
  split_and!; [apply Hkeys; constructor|apply Hcount|apply Hpos; constructor|apply Hsum].
Qed.

Section SummaryFurther.
Context `{FloatOfStr}.

(** When the comprehension returns, it kept the positions that pass the
    test. *)
Lemma filter_pnl_returns (test : float → bool) (items selected : list pyval) :
  filter_pnl test items = Ok selected → selected = List.filter (has_pnl test) items.
Proof.
  revert selected. induction items as [|pos items IH]; intros selected.
  - by intros [= <-].
  - cbn [filter_pnl List.filter]. unfold has_pnl, pnl_percent_of.
    destruct (py_get pos "PnL %" (PyInt 0)) as [v|]; cbn; [|done].
    destruct (py_float v) as [x|]; cbn; [|done].
    destruct (filter_pnl test items) as [rest|]; cbn; [|done].
    intros [= <-]. rewrite (IH rest eq_refl). by destruct (test x).
Qed.

Lemma profitable_not_losing (pos : pyval) :
  has_pnl is_profitable pos = true → has_pnl is_losing pos = false.
Proof.
  unfold has_pnl. destruct (pnl_percent_of pos) as [x|]; [|done].
  apply above_0_not_below_0.
Qed.

Lemma disjoint_filters_length {A} (f g : A → bool) (l : list A) :
  (∀ x, f x = true → g x = false) →
  length (List.filter f l) + length (List.filter g l) ≤ length l.
Proof.
  intros Hfg. induction l as [|x l IH]; cbn; [done|].
  destruct (f x) eqn:Hf; [rewrite (Hfg x Hf)|destruct (g x)]; cbn; lia.
Qed.

(** X15: when the three counts of the summary are computed, the total is
    the number of positions, and no position is counted both as
    profitable and as losing: the two counts together never exceed the
    total. *)
Theorem X15_counts_do_not_overlap (positions : pyval)
    (total_positions profitable_positions losing_positions : nat) :
  portfolio_counts positions
  = Ok (total_positions, profitable_positions, losing_positions) →
  total_positions = position_count positions
  ∧ profitable_positions + losing_positions ≤ total_positions.
Proof.
  unfold portfolio_counts, count_pnl, py_len, position_count.
  destruct (py_iter positions) as [items|]; cbn; [|done].
  destruct (filter_pnl is_profitable items) as [winners|] eqn:Hwin; cbn; [|done].
  destruct (filter_pnl is_losing items) as [losers|] eqn:Hlose; cbn; [|done].
  intros [= <- <- <-]. split; [done|].
  rewrite (filter_pnl_returns _ _ _ Hwin), (filter_pnl_returns _ _ _ Hlose).
  apply disjoint_filters_length, profitable_not_losing.
Qed.

(** X16: the total PnL is the sum over the positions whose PnL dollar
    amount can be read; the others, items that are no records among
    them, add nothing and stop nothing. *)
Theorem X16_total_skips_unreadable (items : list pyval) (total_pnl : float) :
  foldl add_pnl total_pnl items
  = foldl add_pnl total_pnl (List.filter (fun pos => is_ok (pnl_dollar_of pos)) items).
Proof.
  revert total_pnl. induction items as [|pos items IH]; intros total_pnl; [done|].
  cbn [foldl List.filter]. unfold add_pnl at 2, pnl_dollar_of at 1.
  destruct (py_get pos "PnL $" (PyInt 0) ≫= _) as [pnl|] eqn:Hread; cbn.
  - unfold add_pnl at 3. rewrite Hread. apply IH.
  - apply IH.
Qed.

(** X17: [generate_portfolio_summary] always returns a text and does
    nothing to the outside.  The text is the fixed error text exactly
    when the counts cannot be computed, which for a list of positions is
    when some PnL percent cannot be read. *)
Theorem X17_summary_fails_only_on_counts
    (w : World) (positions : pyval) (alerts : list alert) (tr : list event) :
  ∃ rendered,
    generate_portfolio_summary w positions alerts tr = (Ok rendered, tr)
    ∧ (rendered = summary_error ↔ is_ok (portfolio_counts positions) = false)
    ∧ ∀ items, positions = PyList items →
        (rendered = summary_error
         ↔ Exists (fun pos => is_ok (pnl_percent_of pos) = false) items).
Proof.
  assert (∃ rendered,
            generate_portfolio_summary w positions alerts tr = (Ok rendered, tr)
            ∧ (rendered = summary_error ↔ is_ok (portfolio_counts positions) = false))
    as (rendered & Hrun & Hiff).
  { unfold generate_portfolio_summary, try_except, lift, datetime_now.
    unfold mbind at 1, IO_bind.
    destruct (portfolio_counts positions) as [[[total winners] losers]|] eqn:Hcounts.
    - unfold mbind at 1, IO_bind.
      destruct (py_iter positions) as [items|] eqn:Hiter.
      + cbn. eexists. split; [done|]. split; [|done]. intros [=].
      + exfalso. revert Hcounts. unfold portfolio_counts, py_len. by rewrite Hiter.
    - cbn. eexists. by split. }
  exists rendered. split_and!; [done..|].
  intros items ->. rewrite Hiff. split.
  - intros Hraised.
    assert (∀ pos, {is_ok (pnl_percent_of pos) = true}
                   + {is_ok (pnl_percent_of pos) = false}) as Hdec.
    { intros pos. destruct (is_ok (pnl_percent_of pos)); [by left|by right]. }
    destruct (Forall_Exists_dec _ _ Hdec items) as [Hall|Hsome]; [|done].
    by rewrite (portfolio_counts_readable items Hall) in Hraised.
  - apply portfolio_counts_unreadable.
Qed.

End SummaryFurther.

Lemma X15_three_positions :
  3 = position_count
        (PyList [Examples.with_pnl_percent 10; Examples.with_pnl_percent (-5);
                 Examples.with_pnl_percent 0])
  ∧ 1 + 1 ≤ 3.
Proof.
  apply (@X15_counts_do_not_overlap ascii_float_of_str
           (PyList [Examples.with_pnl_percent 10; Examples.with_pnl_percent (-5);
                    Examples.with_pnl_percent 0]) 3 1 1).
  reflexivity.
Defined.

(** ** The run, further *)

(** Running one step of a computation. *)
Lemma io_bind_ok {A B} (m : IO A) (k : A → IO B) (tr tr' : list event) (a : A) :
  m tr = (Ok a, tr') → (m ≫= k) tr = k a tr'.
Proof. unfold mbind, IO_bind. by intros ->. Qed.

Lemma io_bind_lift {A B} (r : result A) (k : A → IO B) (tr : list event) :
  (lift r ≫= k) tr
  = match r with
    | Ok a => k a tr
    | Raised e => (Raised e, tr)
    end.
Proof. unfold mbind, IO_bind, lift. by destruct r. Qed.

Lemma send_returns (w : World) (message : text) (channel_id : string) (tr : list event) :
  ∃ sent,
    send_discord_message w message channel_id tr
    = (Ok sent, tr ++ requests_for w message channel_id).
Proof.
  unfold requests_for. destruct (token_configured (DISCORD_TOKEN w)) eqn:Htoken.
  - destruct (answer w tr message channel_id) as [status_code|e] eqn:Hanswer.
    + rewrite (send_answered _ _ _ _ _ Htoken Hanswer). eauto.
    + rewrite (send_failed _ _ _ _ _ Htoken Hanswer). eauto.
  - rewrite (send_without_token _ _ _ _ Htoken). exists false. by rewrite app_nil_r.
Qed.

Section RunFurther.
Context `{FloatOfStr}.

Lemma summary_returns (w : World) (positions : pyval) (alerts : list alert)
    (tr : list event) :
  ∃ rendered, generate_portfolio_summary w positions alerts tr = (Ok rendered, tr).
Proof.
  unfold generate_portfolio_summary, try_except, lift, datetime_now.
  unfold mbind at 1, IO_bind.
  destruct (portfolio_counts positions) as [counts|]; [|by eexists].
  unfold mbind at 1, IO_bind.
  destruct (py_iter positions) as [items|]; by eexists.
Qed.

(** The counts the run computes for the status file are those of the
    summary. *)
Lemma portfolio_counts_unfold (positions : pyval) :
  portfolio_counts positions
  = total ← py_len positions;
    winners ← count_pnl is_profitable positions;
    losers ← count_pnl is_losing positions;
    mret (total, winners, losers).
Proof. reflexivity. Qed.

(** The run once the loader has returned a sequence that is not empty. *)
Lemma run_after_loading (w : World) (tr tr1 : list event) (positions : pyval) :
  load_latest_positions w tr = (Ok positions, tr1) →
  py_truthy positions = true →
  ∃ rendered,
    generate_portfolio_summary w positions (analyze_positions positions)
      (tr1 ++ [EvNews])
    = (Ok rendered, tr1 ++ [EvNews])
    ∧ run_automated_alerts w tr
      = let alerts := analyze_positions positions in
        let sent :=
          ((tr1 ++ [EvNews])
           ++ requests_for w (portfolio_message_of rendered alerts) (PORTFOLIO_CHANNEL_ID w))
          ++ requests_for w (alpha_message_of (news_digest w) alerts) (ALPHA_CHANNEL_ID w) in
        match portfolio_counts positions with
        | Ok counts =>
            if can_write w "latest_alerts.json" then
              (Ok true,
               sent ++ [EvWrite "latest_alerts.json" (status_data (clock w tr) alerts counts)])
            else (Ok false, sent)
        | Raised _ => (Ok false, sent)
        end.
Proof.
  intros Hload Htruthy.
  destruct (summary_returns w positions (analyze_positions positions) (tr1 ++ [EvNews]))
    as (rendered & Hsummary).
  exists rendered. split; [done|].
  destruct (send_returns w (portfolio_message_of rendered (analyze_positions positions))
              (PORTFOLIO_CHANNEL_ID w) (tr1 ++ [EvNews])) as (sent1 & Hsend1).
  destruct (send_returns w (alpha_message_of (news_digest w) (analyze_positions positions))
              (ALPHA_CHANNEL_ID w)
              ((tr1 ++ [EvNews])
               ++ requests_for w (portfolio_message_of rendered (analyze_positions positions))
                    (PORTFOLIO_CHANNEL_ID w))) as (sent2 & Hsend2).
  unfold run_automated_alerts, try_except.
  rewrite (io_bind_ok (datetime_now w) _ tr tr (clock w tr) eq_refl).
  rewrite (io_bind_ok (load_latest_positions w) _ tr tr1 positions Hload).
  rewrite Htruthy. cbn [negb]. cbv zeta.
  rewrite (io_bind_ok (get_crypto_news_summary w) _ tr1 (tr1 ++ [EvNews])
             (news_digest w) eq_refl).
  rewrite (io_bind_ok _ _ _ _ _ Hsummary).
  change (send_discord_message w ?m (PORTFOLIO_CHANNEL_ID w))
    with (send_discord_message w
            (portfolio_message_of rendered (analyze_positions positions))
            (PORTFOLIO_CHANNEL_ID w)).
  rewrite (io_bind_ok _ _ _ _ _ Hsend1).
  change (send_discord_message w ?m (ALPHA_CHANNEL_ID w))
    with (send_discord_message w
            (alpha_message_of (news_digest w) (analyze_positions positions))
            (ALPHA_CHANNEL_ID w)).
  rewrite (io_bind_ok _ _ _ _ _ Hsend2).
  rewrite !io_bind_lift, portfolio_counts_unfold.
  destruct (py_len positions) as [total|]; cbn; [|done].
  rewrite io_bind_lift.
  destruct (count_pnl is_profitable positions) as [winners|]; cbn; [|done].
  rewrite io_bind_lift.
  destruct (count_pnl is_losing positions) as [losers|]; cbn; [|done].
  unfold write_status, mbind, IO_bind, emit, lift.
  by destruct (can_write w "latest_alerts.json").
Qed.




(** X18: once a sequence that is not empty has been loaded, the run
    returns true exactly when the counts of the status file can be
    computed and the file can be written; neither the token nor the
    answers of the network have a part in it. *)
Theorem X18_run_success_criterion (w : World) (tr tr1 : list event) (positions : pyval) :
  load_latest_positions w tr = (Ok positions, tr1) →
  py_truthy positions = true →
  (run_automated_alerts w tr).1
  = Ok (is_ok (portfolio_counts positions) && can_write w "latest_alerts.json").
Proof.
  intros Hload Htruthy.
  destruct (run_after_loading w tr tr1 positions Hload Htruthy) as (rendered & _ & ->).
  cbv zeta. destruct (portfolio_counts positions); [|done].
  by destruct (can_write w "latest_alerts.json").
Qed.

(** X19: once a sequence that is not empty has been loaded, the run asks
    the news collaborator once and then sends the portfolio message and
    the alpha message, in this order, each at most once: with a token two
    requests are posted, whatever the first is answered and whether or
    not there are alerts; without a token none is. *)
Theorem X19_run_sends_both_messages (w : World) (tr tr1 : list event) (positions : pyval) :
  load_latest_positions w tr = (Ok positions, tr1) →
  py_truthy positions = true →
  ∃ rendered evs,
    (run_automated_alerts w tr).2 = tr1 ++ evs
    ∧ List.filter is_network evs
      = EvNews
        :: requests_for w
             (portfolio_message_of rendered (analyze_positions positions))
             (PORTFOLIO_CHANNEL_ID w)
        ++ requests_for w
             (alpha_message_of (news_digest w) (analyze_positions positions))
             (ALPHA_CHANNEL_ID w)
    ∧ generate_portfolio_summary w positions (analyze_positions positions)
        (tr1 ++ [EvNews])
      = (Ok rendered, tr1 ++ [EvNews]).
Proof.
  intros Hload Htruthy.
  destruct (run_after_loading w tr tr1 positions Hload Htruthy)
    as (rendered & Hsummary & ->).
  cbv zeta. exists rendered.
  set (posts1 := requests_for w _ (PORTFOLIO_CHANNEL_ID w)).
  set (posts2 := requests_for w _ (ALPHA_CHANNEL_ID w)).
  assert (List.filter is_network (posts1 ++ posts2) = posts1 ++ posts2) as Hposts.
  { unfold posts1, posts2, requests_for.
    by destruct (token_configured (DISCORD_TOKEN w)). }
  destruct (portfolio_counts positions) as [counts|];
    [destruct (can_write w "latest_alerts.json")|].
  - exists ([EvNews] ++ posts1 ++ posts2 ++ [EvWrite "latest_alerts.json"
              (status_data (clock w tr) (analyze_positions positions) counts)]).
    cbn [snd]. split_and!; [by rewrite <- !app_assoc| |done].
    cbn. rewrite app_assoc, List.filter_app, Hposts. cbn. by rewrite app_nil_r.
  - exists ([EvNews] ++ posts1 ++ posts2).
    cbn [snd]. split_and!; [by rewrite <- !app_assoc| |done].
    cbn. by rewrite Hposts.
  - exists ([EvNews] ++ posts1 ++ posts2).
    cbn [snd]. split_and!; [by rewrite <- !app_assoc| |done].
    cbn. by rewrite Hposts.
Qed.


End RunFurther.

Lemma X18_live_run_succeeds :
  (@run_automated_alerts ascii_float_of_str Examples.live_world []).1 = Ok true.
Proof.
  exact (@X18_run_success_criterion ascii_float_of_str Examples.live_world []
           [EvGlob "positions_*.json"; EvOpenRead "positions_new.json"]
           (PyList [PyDict Examples.losing_position]) eq_refl eq_refl).
Defined.

Lemma X19_live_run_posts_twice :
  ∃ rendered evs,
    (@run_automated_alerts ascii_float_of_str Examples.live_world []).2
    = [EvGlob "positions_*.json"; EvOpenRead "positions_new.json"] ++ evs
    ∧ List.filter is_network evs
      = EvNews
        :: requests_for Examples.live_world
             (portfolio_message_of rendered
                (@analyze_positions ascii_float_of_str
                   (PyList [PyDict Examples.losing_position])))
             (PORTFOLIO_CHANNEL_ID Examples.live_world)
        ++ requests_for Examples.live_world
             (alpha_message_of (news_digest Examples.live_world)
                (@analyze_positions ascii_float_of_str
                   (PyList [PyDict Examples.losing_position])))
             (ALPHA_CHANNEL_ID Examples.live_world)
    ∧ @generate_portfolio_summary ascii_float_of_str Examples.live_world
        (PyList [PyDict Examples.losing_position])
        (@analyze_positions ascii_float_of_str (PyList [PyDict Examples.losing_position]))
        ([EvGlob "positions_*.json"; EvOpenRead "positions_new.json"] ++ [EvNews])
      = (Ok rendered,
         [EvGlob "positions_*.json"; EvOpenRead "positions_new.json"] ++ [EvNews]).
Proof.
  apply (@X19_run_sends_both_messages ascii_float_of_str Examples.live_world []);
    reflexivity.
Defined.

(** ** The news digest *)

Lemma utf8_take_length (n : nat) (s : string) : utf8_length (utf8_take n s) ≤ n.
Proof.
  revert n. induction s as [|c s IH]; intros n; cbn; [lia|].
  destruct (is_continuation c) eqn:Hc; cbn; [by rewrite Hc|].
  destruct n as [|n]; cbn; [lia|]. rewrite Hc. specialize (IH n). lia.
Qed.

Lemma utf8_take_prefix (n : nat) (s : string) : String.prefix (utf8_take n s) s = true.
Proof.
  revert n. induction s as [|c s IH]; intros n; cbn; [done|].
  destruct (is_continuation c); [|destruct n as [|n]; [done|]]; cbn;
    by destruct (ascii_dec c c).
Qed.

Lemma utf8_take_short (n : nat) (s : string) : utf8_length s ≤ n → utf8_take n s = s.
Proof.
  revert n. induction s as [|c s IH]; intros n; cbn; [done|].
  destruct (is_continuation c); [intros ?; by rewrite IH|].
  destruct n as [|n]; [lia|]. intros ?. rewrite IH; [done|lia].
Qed.

Lemma filter_sentiment_returns (label : string) (items selected : list pyval) :
  filter_sentiment label items = Ok selected →
  selected = List.filter (has_sentiment label) items
  ∧ Forall (fun item => is_record item = true) items.
Proof.
  revert selected. induction items as [|item items IH]; intros selected.
  - by intros [= <-].
  - cbn [filter_sentiment List.filter]. unfold has_sentiment.
    destruct item as [| | | | | |d]; try discriminate. cbn.
    destruct (filter_sentiment label items) as [rest|]; cbn; [|done].
    destruct (IH rest eq_refl) as [-> Hrecords].
    intros [= <-]. split; [|by constructor].
    by destruct (py_eq_str _ label).
Qed.

Lemma filter_sentiment_records (label : string) (items : list pyval) :
  Forall (fun item => is_record item = true) items →
  filter_sentiment label items = Ok (List.filter (has_sentiment label) items).
Proof.
  induction 1 as [|item items Hitem _ IH]; [done|].
  cbn [filter_sentiment List.filter]. unfold has_sentiment.
  destruct item as [| | | | | |d]; try discriminate. cbn. rewrite IH. cbn.
  by destruct (py_eq_str _ label).
Qed.

Lemma positive_not_negative (item : pyval) :
  has_sentiment "Positive" item = true → has_sentiment "Negative" item = false.
Proof.
  unfold has_sentiment. destruct (py_get item "sentiment" PyNone) as [v|]; [|done].
  destruct v; cbn; try done. by intros ->%String.eqb_eq.
Qed.

(** X21: the news digest is always a text: the fixed text for a
    collaborator that is absent or fails, or whose answer cannot be gone
    through; the fixed text for an empty answer; or the counts and the
    headline, and then the positive and the negative articles together
    are at most the articles, of which there is at least one. *)
Theorem X21_news_digest_shapes (collaborator : result pyval) :
  (news_summary_from collaborator = news_unavailable
   ∨ news_summary_from collaborator = no_recent_news
   ∨ ∃ items headline,
       collaborator = Ok (PyList items)
       ∧ 0 < length items
       ∧ Forall (fun item => is_record item = true) items
       ∧ length (List.filter (has_sentiment "Positive") items)
         + length (List.filter (has_sentiment "Negative") items) ≤ length items
       ∧ news_summary_from collaborator
         = news_lines (length items)
             (length (List.filter (has_sentiment "Positive") items))
             (length (List.filter (has_sentiment "Negative") items)) headline)
  ∧ (∀ e, collaborator = Raised e → news_summary_from collaborator = news_unavailable)
  ∧ (∀ news, collaborator = Ok news → py_truthy news = false →
       news_summary_from collaborator = no_recent_news).
Proof.
  split_and!.
  - destruct collaborator as [news|e]; [|by left].
    unfold news_summary_from. cbn.
    destruct (py_truthy news) eqn:Htruthy; [|by right; left].
    destruct (py_iter news) as [items|] eqn:Hiter; cbn; [|by left].
    destruct (filter_sentiment "Positive" items) as [bullish|] eqn:Hbull; cbn; [|by left].
    destruct (filter_sentiment "Negative" items) as [bearish|] eqn:Hbear; cbn; [|by left].
    destruct (filter_sentiment_returns _ _ _ Hbull) as [-> Hrecords].
    destruct (filter_sentiment_returns _ _ _ Hbear) as [-> _].
    unfold py_len. rewrite Hiter. cbn.
    destruct news as [| | | | |l|]; try (by left).
    destruct l as [|top_news l]; [by left|]. cbn.
    injection Hiter as <-.
    destruct (py_get top_news "title" (PyStr "")) as [title|]; cbn; [|by left].
    destruct (py_slice_100 title) as [headline|]; cbn; [|by left].
    right; right. exists (top_news :: l), headline.
    split_and!; [done|cbn; lia|done| |done].
    apply disjoint_filters_length, positive_not_negative.
  - by intros e ->.
  - intros news -> Hfalsy. unfold news_summary_from. cbn. by rewrite Hfalsy.
Qed.

(** X22: for an answer that is a list of records whose first has a text
    as title, or no title, the digest is given with the counts of the
    whole list and the headline cut to the first 100 characters of that
    title: a prefix of it, the whole of it when it is no longer. *)
Theorem X22_headline_is_cut (top_news : gmap string pyval) (others : list pyval)
    (title : string) :
  Forall (fun item => is_record item = true) others →
  default (PyStr "") (top_news !! "title") = PyStr title →
  news_summary_from (Ok (PyList (PyDict top_news :: others)))
  = news_lines (S (length others))
      (length (List.filter (has_sentiment "Positive") (PyDict top_news :: others)))
      (length (List.filter (has_sentiment "Negative") (PyDict top_news :: others)))
      (PyStr (utf8_take 100 title))
  ∧ utf8_length (utf8_take 100 title) ≤ 100
  ∧ String.prefix (utf8_take 100 title) title = true
  ∧ (utf8_length title ≤ 100 → utf8_take 100 title = title).
Proof.
  intros Hrecords Htitle. split_and!.
  - assert (Forall (fun item => is_record item = true) (PyDict top_news :: others))
      as Hall by by constructor.
    unfold news_summary_from.
    cbn [mbind result_bind py_truthy py_iter length Nat.eqb negb].
    rewrite !(filter_sentiment_records _ _ Hall).
    cbn [mbind result_bind]. unfold py_len. cbn [py_iter fmap result_fmap mbind result_bind].
    cbn [py_first mbind result_bind py_get]. rewrite Htitle. reflexivity.
  - apply utf8_take_length.
  - apply utf8_take_prefix.
  - apply utf8_take_short.
Qed.

Example utf8_take_characters :
  utf8_take 2 "❌✅🟩" = "❌✅" ∧ utf8_length "❌✅🟩" = 3 ∧ utf8_take 5 "abc" = "abc".
Proof. repeat split; reflexivity. Qed.

Lemma X22_headline_of_two_items :
  news_summary_from
    (Ok (PyList [PyDict MoreExamples.headline_item; PyDict MoreExamples.quiet_item]))
  = news_lines 2 1 0 (PyStr "Bitcoin breaks out ❌")
  ∧ utf8_length (utf8_take 100 "Bitcoin breaks out ❌") ≤ 100
  ∧ String.prefix (utf8_take 100 "Bitcoin breaks out ❌") "Bitcoin breaks out ❌" = true
  ∧ (utf8_length "Bitcoin breaks out ❌" ≤ 100
     → utf8_take 100 "Bitcoin breaks out ❌" = "Bitcoin breaks out ❌").
Proof.
  apply (X22_headline_is_cut MoreExamples.headline_item [PyDict MoreExamples.quiet_item]
           "Bitcoin breaks out ❌").
  - by repeat constructor.
  - reflexivity.
Defined.

(** ** The messages *)

Lemma take_decides_emptiness {A} (l l' : list A) :
  take 5 l = take 5 l' → Nat.eqb (length l) 0 = Nat.eqb (length l') 0.
Proof. by destruct l, l'. Qed.

(** X23: a message lists at most the first five alerts of its channel:
    two lists of alerts whose first five alerts for a channel are the
    same give the same message for that channel. *)
Theorem X23_messages_list_first_five
    (portfolio_summary news_summary : text) (alerts alerts' : list alert) :
  (take 5 (for_channel "portfolio" alerts) = take 5 (for_channel "portfolio" alerts') →
   portfolio_message_of portfolio_summary alerts
   = portfolio_message_of portfolio_summary alerts')
  ∧ (take 5 (for_channel "alpha" alerts) = take 5 (for_channel "alpha" alerts') →
     alpha_message_of news_summary alerts = alpha_message_of news_summary alerts').
Proof.
  split; intros Hfirst; unfold portfolio_message_of, alpha_message_of, alert_lines;
    by rewrite (take_decides_emptiness _ _ Hfirst), Hfirst.
Qed.

Lemma X23_sixth_alert_not_listed :
  portfolio_message_of summary_error
    (@analyze_positions ascii_float_of_str
       (PyList (replicate 6 (PyDict Examples.losing_position))))
  = portfolio_message_of summary_error
      (@analyze_positions ascii_float_of_str
         (PyList (replicate 7 (PyDict Examples.losing_position)))).
Proof.
  apply (X23_messages_list_first_five summary_error []). reflexivity.
Defined.
